(** * hasscomfoair: the ComfoAir-to-MQTT bridge

    A shallow embedding of [hasscomfoair.py]: the display decoder
    [decode_display_data], the handler class [ComfoAirHandler] with its
    cache, and the reconnect loop [mqtt_connection].

    Python values are modelled by [pyval]; the handler's [_cache] dict is
    a finite map from keys (integers for raw command ids, strings for the
    derived "speed" and "state" entries) to values.  A coroutine of the
    handler is a function from the cache to an outcome, the new cache and
    the list of calls it issued to its collaborators, in order. *)

From Stdlib Require Import ZArith String List Lia.
From stdpp Require Import base decidable option list gmap strings.

Open Scope string_scope.
Open Scope list_scope.
Open Scope Z_scope.

(** ** Python values *)

(** The attributes of the device library to which the bridge listens
    ([ca.AIRFLOW_EXHAUST], ...); opaque tokens for the bridge. *)
Inductive attribute_id :=
  | AIRFLOW_EXHAUST
  | AIRFLOW_SUPPLY
  | FAN_SPEED_MODE
  | TEMP_OUTSIDE
  | TEMP_COMFORT
  | TEMP_RETURN
  | TEMP_EXHAUST
  | TEMP_SUPPLY.

#[global] Instance attribute_id_eq_dec : EqDecision attribute_id.
Proof. solve_decision. Defined.

Inductive pyval :=
  | VInt (n : Z)
  | VStr (s : string)
  | VBytes (b : list Z)
  | VAttr (a : attribute_id).

#[global] Instance pyval_eq_dec : EqDecision pyval.
Proof. solve_decision. Defined.

(** Truth value of [x] where [x] is the result of [dict.get]: [None],
    zero, the empty string and empty bytes are falsy. *)
Definition truthy (x : option pyval) : bool :=
  match x with
  | None => false
  | Some (VInt n) => negb (Z.eqb n 0)
  | Some (VStr s) => negb (String.eqb s "")
  | Some (VBytes b) => negb (Nat.eqb (length b) 0)
  | Some (VAttr _) => true
  end.

(** [l[i]] for a Python list: a negative index counts from the end, an
    index outside [-len, len) raises IndexError (here [None]). *)
Definition py_getitem {A} (l : list A) (i : Z) : option A :=
  if Z.leb 0 i then l !! Z.to_nat i
  else if Z.leb (- Z.of_nat (length l)) i then l !! Z.to_nat (Z.of_nat (length l) + i)
  else None.

(** [l.index(x)]: the first position of [x], [None] for ValueError. *)
Fixpoint py_index (l : list string) (x : string) : option Z :=
  match l with
  | [] => None
  | y :: l' => if String.eqb y x then Some 0 else Z.succ <$> py_index l' x
  end.

(** [x in l] *)
Definition py_in (x : string) (l : list string) : bool :=
  existsb (String.eqb x) l.

(** ** Topics *)

Definition TOPIC_TEMP_OUTSIDE := "comfoair/temp/outside".
Definition TOPIC_AIRFLOW_EXHAUST := "comfoair/airflow/exhaust".
Definition TOPIC_AIRFLOW_SUPPLY := "comfoair/airflow/supply".
Definition TOPIC_FAN_SPEED := "comfoair/fan/speed".
Definition TOPIC_FAN_STATE := "comfoair/fan/state".
Definition TOPIC_AVAILABILITY := "comfoair/LWT".
Definition TOPIC_SET_FAN_SPEED := "comfoair/fan/speed/set".
Definition TOPIC_SET_FAN_STATE := "comfoair/fan/state/set".

(** ** Calls to the collaborators *)

(** [mqtt.publish(topic, payload, qos=0, retain=False)] *)
Record publication := Publication {
  topic : string;
  payload : pyval;
  qos : Z;
  retain : bool
}.

#[global] Instance publication_eq_dec : EqDecision publication.
Proof. solve_decision. Defined.

(** [logger.info(fmt, *args)]; the rendering of the format is not
    modelled, a record keeps the format and its arguments. *)
Record log_record := LogRecord {
  fmt : string;
  args : list pyval
}.

Inductive effect :=
  | Publish (p : publication)     (* mqtt.publish *)
  | SetSpeed (n : Z)              (* ca.set_speed *)
  | Log (r : log_record).         (* logger.info *)

Inductive exn :=
  | IndexError
  | AssertionError
  | ValueError
  | KeyError.

Inductive result (A : Type) :=
  | Ok (a : A)
  | Raise (e : exn).
Arguments Ok {A} a.
Arguments Raise {A} e.

(** ** The handler monad *)

Abbreviation key := (Z + string)%type.
Abbreviation cache_t := (gmap (Z + string) pyval).

Record run (A : Type) := Run {
  outcome : result A;
  cache_of : cache_t;
  effects_of : list effect
}.
Arguments Run {A}.
Arguments outcome {A}.
Arguments cache_of {A}.
Arguments effects_of {A}.

Definition M (A : Type) : Type := cache_t -> run A.

Definition ret {A} (a : A) : M A := fun c => Run (Ok a) c [].

Definition bind {A B} (m : M A) (f : A -> M B) : M B := fun c =>
  match m c with
  | Run (Ok a) c1 es1 =>
      match f a c1 with
      | Run o c2 es2 => Run o c2 (es1 ++ es2)
      end
  | Run (Raise e) c1 es1 => Run (Raise e) c1 es1
  end.

Definition raise {A} (e : exn) : M A := fun c => Run (Raise e) c [].

Definition emit (e : effect) : M unit := fun c => Run (Ok tt) c [e].

(** [self._cache.get(k)] *)
Definition cache_get (k : key) : M (option pyval) := fun c => Run (Ok (c !! k)) c [].

(** [self._cache[k] = v] *)
Definition cache_set (k : key) (v : pyval) : M unit := fun c => Run (Ok tt) (<[k:=v]> c) [].

Notation "x <- m ;; k" := (bind m (fun x => k))
  (at level 20, m at level 99, k at level 200, only parsing).
Notation "m ;; k" := (bind m (fun _ => k))
  (at level 100, k at level 200, right associativity, only parsing).

Definition logger_info (f : string) (a : list pyval) : M unit :=
  emit (Log (LogRecord f a)).

Definition mqtt_publish (t : string) (p : pyval) (retained : bool) : M unit :=
  emit (Publish (Publication t p 0 retained)).

Definition ca_set_speed (n : Z) : M unit := emit (SetSpeed n).

(** Observations of a run. *)
Definition publications (es : list effect) : list publication :=
  omap (fun e => match e with Publish p => Some p | _ => None end) es.

Definition control_calls (es : list effect) : list Z :=
  omap (fun e => match e with SetSpeed n => Some n | _ => None end) es.

Definition log_records (es : list effect) : list log_record :=
  omap (fun e => match e with Log r => Some r | _ => None end) es.

(** The payloads published on topic [t], in order. *)
Definition published_on (t : string) (es : list effect) : list pyval :=
  payload <$> filter (fun p => topic p = t) (publications es).

(** ** The display decoder *)

Definition cc_segments : list (list string) := [
  ["Sa"; "Su"; "Mo"; "Tu"; "We"; "Th"; "Fri"; ":"];
  (* 1-2: hour *)
  ["1ADEG"; "1B"; "1C"; "AUTO"; "MANUAL"; "FILTER"; "I"; "E"];
  ["2A"; "2B"; "2C"; "2D"; "2E"; "2F"; "2G"; "Ventilation"];
  (* 3-4: minutes *)
  ["3A"; "3B"; "3C"; "3D"; "3E"; "3F"; "3G"; "Extractor hood"];
  ["4A"; "4B"; "4C"; "4D"; "4E"; "4F"; "4G"; "Pre-heater"];
  (* 5: level *)
  ["5A"; "5B"; "5C"; "5D"; "5E"; "5F"; "5G"; "Frost"];
  (* 6-9: comfort temperature *)
  ["6A"; "6B"; "6C"; "6D"; "6E"; "6F"; "6G"; "EWT"];
  ["7A"; "7B"; "7C"; "7D"; "7E"; "7F"; "7G"; "Post-heater"];
  ["8A"; "8B"; "8C"; "8D"; "8E"; "8F"; "8G"; "."];
  ["°"; "Bypass"; "9AEF"; "9G"; "9D"; "House"; "Supply air"; "Exhaust air"]
].

(** The dict [ssd_chr]: seven-segment pattern to character. *)
Definition ssd_chr (digit : Z) : option string :=
  match digit with
  | 0x00 => Some " "   (* 0b0000000 *)
  | 0x3f => Some "0"   (* 0b0111111 *)
  | 0x06 => Some "1"   (* 0b0000110 *)
  | 0x5b => Some "2"   (* 0b1011011 *)
  | 0x4f => Some "3"   (* 0b1001111 *)
  | 0x66 => Some "4"   (* 0b1100110 *)
  | 0x6d => Some "5"   (* 0b1101101 *)
  | 0x7d => Some "6"   (* 0b1111101 *)
  | 0x07 => Some "7"   (* 0b0000111 *)
  | 0x7f => Some "8"   (* 0b1111111 *)
  | 0x6f => Some "9"   (* 0b1101111 *)
  | 0x77 => Some "A"   (* 0b1110111 *)
  | 0x7c => Some "B"   (* 0b1111100 *)
  | 0x39 => Some "C"   (* 0b0111001 *)
  | 0x5e => Some "D"   (* 0b1011110 *)
  | 0x79 => Some "E"   (* 0b1111001 *)
  | 0x71 => Some "F"   (* 0b1110001 *)
  | _ => None
  end.

(** [if val & m], the truth value of a non-negative mask test *)
Definition bit_set (val m : Z) : bool := negb (Z.eqb (Z.land val m) 0).

(** The digit pattern computed at each position; position 0 has none. *)
Definition digit_at (pos : nat) (val : Z) : option Z :=
  if Nat.eqb pos 1 then
    let digit := Z.land val 6 in
    Some (if bit_set val 1 then Z.lor digit 0x59 (* 0b1011001 *) else digit)
  else if Nat.leb 2 pos && Nat.leb pos 8 then
    Some (Z.land val 0x7f)
  else if Nat.eqb pos 9 then
    let digit := 0 in
    let digit := if bit_set val 4 then Z.lor digit 0x31 (* 0b0110001 *) else digit in
    let digit := if bit_set val 8 then Z.lor digit 0x40 (* 0b1000000 *) else digit in
    let digit := if bit_set val 0x10 then Z.lor digit 0x08 (* 0b0001000 *) else digit in
    Some digit
  else None.

(** The labels [cc_segments[pos][i]] of the bits [i] of [val] that are set,
    for [i] in [bits]. *)
Definition lit (pos : nat) (val : Z) (bits : list nat) : list string :=
  omap (fun i => if bit_set val (Z.shiftl 1 (Z.of_nat i))
                 then row ← cc_segments !! pos; row !! i
                 else None) bits.

(** [range(offset, 8)] *)
Definition range8 (offset : nat) : list nat := seq offset (8 - offset).

(** One turn of the loop: what it appends to [segments], or the failed
    assertion. *)
Definition decode_cell (pos : nat) (val : Z) : result (list string) :=
  match digit_at pos val with
  | Some digit =>
      match ssd_chr digit with
      | Some ch =>
          if Nat.eqb pos 1 then Ok (ch :: lit pos val (range8 3))
          else if Nat.eqb pos 9 then
            Ok (ch :: lit pos val [0; 1; 5; 6; 7]%nat ++ lit pos val (range8 8))
          else Ok (ch :: lit pos val (range8 7))
      | None => Raise AssertionError       (* assert digit in ssd_chr *)
      end
  | None => Ok (lit pos val (range8 0))
  end.

(** [for pos, val in enumerate(data)], from position [pos] on *)
Fixpoint decode_cells (pos : nat) (data : list Z) : result (list string) :=
  match data with
  | [] => Ok []
  | val :: data' =>
      match decode_cell pos val with
      | Ok segs =>
          match decode_cells (S pos) data' with
          | Ok rest => Ok (segs ++ rest)
          | Raise e => Raise e
          end
      | Raise e => Raise e
      end
  end.

Definition decode_display_data (data : list Z) : M unit :=
  if Nat.eqb (length cc_segments) (length data) then
    match decode_cells 0 data with
    | Ok segments => logger_info "Segments: [%s]" [VStr (String.concat "|" segments)]
    | Raise e => raise e
    end
  else ret tt.

(** ** ComfoAirHandler

    The listeners [temp_outside_event], [airflow_exhaust], [airflow_supply]
    and [fan_speed_mode] do not use their [attribute] argument; it is left
    out of their embeddings.  The command handlers use their [ca] argument
    only for [ca.set_speed], an effect of the monad. *)

Definition SPEED_VALUES : list string := ["auto"; "off"; "low"; "medium"; "high"].
Definition STATE_VALUES : list string := ["on"; "off"].

Definition K_speed : key := inr "speed".
Definition K_state : key := inr "state".

(** [not x or x == "off"] *)
Definition falsy_or_off (x : option pyval) : bool :=
  negb (truthy x) || bool_decide (x = Some (VStr "off")).

Definition fan_speed_mode (value : Z) : M unit :=
  logger_info "Fan speed: %s" [VInt value] ;;
  speed <- match py_getitem SPEED_VALUES value with
           | Some s => ret s
           | None => raise IndexError
           end ;;
  (if String.eqb speed "off" then
     logger_info "Publish fan state: {%s/%s}" [VStr TOPIC_FAN_STATE; VStr "off"] ;;
     cache_set K_state (VStr "off") ;;
     mqtt_publish TOPIC_FAN_STATE (VStr "off") true
   else if negb (String.eqb speed "auto") then
     prev <- cache_get K_speed ;;
     (if falsy_or_off prev then
        logger_info "Publish fan state: {%s/%s}" [VStr TOPIC_FAN_STATE; VStr "on"] ;;
        cache_set K_state (VStr "on") ;;
        mqtt_publish TOPIC_FAN_STATE (VStr "on") true
      else ret tt) ;;
     logger_info "Publish fan state: {%s/%s}" [VStr TOPIC_FAN_SPEED; VStr speed] ;;
     mqtt_publish TOPIC_FAN_SPEED (VStr speed) false
   else ret tt) ;;
  cache_set K_speed (VStr speed).

(** [ComfoAirHandler.__init__]: the cache of a new handler *)
Definition new_cache : cache_t := ∅.

(** [invalidate_cache]; no caller in the program *)
Definition invalidate_cache : M unit := fun _ => Run (Ok tt) ∅ [].

Definition event (cmd : Z) (data : list Z) : M unit :=
  cached <- cache_get (inl cmd) ;;
  if bool_decide (cached = Some (VBytes data)) then ret tt
  else
    cache_set (inl cmd) (VBytes data) ;;
    logger_info "Msg %#x: [%s]" [VInt cmd; VBytes data] ;;
    if Z.eqb cmd 0x3c then decode_display_data data else ret tt.

Definition temp_outside_event (value : pyval) : M unit :=
  logger_info "Outside temperature: %s" [value] ;;
  logger_info "Publish outside temperature: {%s/%s}" [VStr TOPIC_TEMP_OUTSIDE; value] ;;
  mqtt_publish TOPIC_TEMP_OUTSIDE value false.

Definition airflow_exhaust (value : pyval) : M unit :=
  logger_info "Airflow exhaust: %s" [value] ;;
  logger_info "Publish airflow exhaust: {%s/%s}" [VStr TOPIC_AIRFLOW_EXHAUST; value] ;;
  mqtt_publish TOPIC_AIRFLOW_EXHAUST value false.

Definition airflow_supply (value : pyval) : M unit :=
  logger_info "Airflow supply: %s" [value] ;;
  logger_info "Publish airflow supply: {%s/%s}" [VStr TOPIC_AIRFLOW_SUPPLY; value] ;;
  mqtt_publish TOPIC_AIRFLOW_SUPPLY value false.

Definition cooked_event (attribute : attribute_id) (value : pyval) : M unit :=
  logger_info "Attribute %s: %s" [VAttr attribute; value].

Definition handle_set_speed (value : string) : M unit :=
  if negb (py_in value SPEED_VALUES) then
    logger_info "Invalid fan speed value reveived: {value}" [VStr value]
  else
    match py_index SPEED_VALUES value with
    | Some pos =>
        if Z.leb 1 pos && Z.leb pos 4 then ca_set_speed pos else ret tt
    | None => raise ValueError   (* of list.index; excluded by the test above *)
    end.

Definition handle_set_fan_state (value : string) : M unit :=
  if negb (py_in value STATE_VALUES) then
    logger_info "Invalid fan state value reveived: {value}" [VStr value]
  else if String.eqb value "off" then
    ca_set_speed 1
  else
    speed <- cache_get K_speed ;;
    if falsy_or_off speed then ca_set_speed 2 else ret tt.

(** The publications on topic [t], in order. *)
Definition on_topic (t : string) (es : list effect) : list publication :=
  filter (fun p => topic p = t) (publications es).

Definition state_pub (s : string) : publication :=
  Publication TOPIC_FAN_STATE (VStr s) 0 true.

Definition speed_pub (s : string) : publication :=
  Publication TOPIC_FAN_SPEED (VStr s) 0 false.

(** The cached speed, when there is one, is a string of [SPEED_VALUES]. *)
Definition speed_wf (c : cache_t) : Prop :=
  forall v, c !! K_speed = Some v -> exists s, v = VStr s /\ s ∈ SPEED_VALUES.

(** The cached speed is absent or "off". *)
Definition stopped (c : cache_t) : Prop :=
  c !! K_speed = None \/ c !! K_speed = Some (VStr "off").

(** [s] is one of low, medium, high. *)
Definition running (s : string) : Prop := s ∈ ["low"; "medium"; "high"].

(** Feeding a sequence of raw fan speeds to the translator, in order. *)
Fixpoint feed (values : list Z) : M unit :=
  match values with
  | [] => ret tt
  | v :: values' => fan_speed_mode v ;; feed values'
  end.

(** * Properties *)

(** ** The positional lookup *)

Lemma SPEED_VALUES_getitem value speed :
  py_getitem SPEED_VALUES value = Some speed <->
  (value, speed) ∈ [(0, "auto"); (1, "off"); (2, "low"); (3, "medium"); (4, "high");
                    (-5, "auto"); (-4, "off"); (-3, "low"); (-2, "medium"); (-1, "high")].
Proof.
  split.
  - intros H.
    assert (value < -5 \/ 5 <= value \/ value = -5 \/ value = -4 \/ value = -3 \/
            value = -2 \/ value = -1 \/ value = 0 \/ value = 1 \/ value = 2 \/
            value = 3 \/ value = 4) as Hcases by lia.
    unfold py_getitem in H.
    destruct Hcases as [Hlt | [Hge | Hin]].
    + destruct (Z.leb_spec 0 value); [lia |].
      destruct (Z.leb_spec (- Z.of_nat (length SPEED_VALUES)) value); [simpl in *; lia | done].
    + destruct (Z.leb_spec 0 value); [| lia].
      apply lookup_lt_Some in H. simpl in H. lia.
    + repeat destruct Hin as [-> | Hin]; try subst value;
        vm_compute in H; injection H as <-; set_solver.
  - rewrite !elem_of_cons, elem_of_nil.
    intros H. repeat destruct H as [[= -> ->] | H]; first [reflexivity | done].
Qed.

Lemma SPEED_VALUES_out_of_range value :
  py_getitem SPEED_VALUES value = None <-> value < -5 \/ 5 <= value.
Proof.
  split.
  - intros H.
    destruct (decide (value < -5 \/ 5 <= value)) as [|Hn]; [done |].
    assert (value = -5 \/ value = -4 \/ value = -3 \/ value = -2 \/ value = -1 \/
            value = 0 \/ value = 1 \/ value = 2 \/ value = 3 \/ value = 4) as Hin by lia.
    repeat destruct Hin as [-> | Hin]; try subst value; vm_compute in H; done.
  - intros H. destruct (py_getitem SPEED_VALUES value) as [s|] eqn:E; [| done].
    apply SPEED_VALUES_getitem in E.
    rewrite !elem_of_cons, elem_of_nil in E.
    repeat destruct E as [[= -> ->] | E]; first [lia | done].
Qed.

(** ** What one call of [fan_speed_mode] does *)

Definition log_fan_speed (value : Z) : effect :=
  Log (LogRecord "Fan speed: %s" [VInt value]).

Definition log_publish (t v : string) : effect :=
  Log (LogRecord "Publish fan state: {%s/%s}" [VStr t; VStr v]).

Lemma fan_speed_mode_fault c value :
  py_getitem SPEED_VALUES value = None ->
  fan_speed_mode value c = Run (Raise IndexError) c [log_fan_speed value].
Proof. intros H. unfold fan_speed_mode, bind. simpl. rewrite H. reflexivity. Qed.

Lemma fan_speed_mode_off c value :
  py_getitem SPEED_VALUES value = Some "off" ->
  fan_speed_mode value c =
    Run (Ok tt) (<[K_speed:=VStr "off"]> (<[K_state:=VStr "off"]> c))
      [log_fan_speed value; log_publish TOPIC_FAN_STATE "off"; Publish (state_pub "off")].
Proof. intros H. unfold fan_speed_mode, bind. simpl. rewrite H. reflexivity. Qed.

Lemma fan_speed_mode_auto c value :
  py_getitem SPEED_VALUES value = Some "auto" ->
  fan_speed_mode value c =
    Run (Ok tt) (<[K_speed:=VStr "auto"]> c) [log_fan_speed value].
Proof. intros H. unfold fan_speed_mode, bind. simpl. rewrite H. reflexivity. Qed.

Lemma fan_speed_mode_running c value speed :
  py_getitem SPEED_VALUES value = Some speed -> running speed ->
  fan_speed_mode value c =
    if falsy_or_off (c !! K_speed) then
      Run (Ok tt) (<[K_speed:=VStr speed]> (<[K_state:=VStr "on"]> c))
        [log_fan_speed value; log_publish TOPIC_FAN_STATE "on"; Publish (state_pub "on");
         log_publish TOPIC_FAN_SPEED speed; Publish (speed_pub speed)]
    else
      Run (Ok tt) (<[K_speed:=VStr speed]> c)
        [log_fan_speed value; log_publish TOPIC_FAN_SPEED speed; Publish (speed_pub speed)].
Proof.
  intros H Hr. unfold fan_speed_mode, bind. simpl. rewrite H.
  unfold running in Hr. rewrite !elem_of_cons, elem_of_nil in Hr.
  destruct Hr as [-> | [-> | [-> | []]]]; simpl;
    destruct (falsy_or_off (c !! K_speed)); reflexivity.
Qed.

Lemma speed_cases speed :
  speed ∈ SPEED_VALUES -> speed = "auto" \/ speed = "off" \/ running speed.
Proof.
  unfold SPEED_VALUES, running. rewrite !elem_of_cons, elem_of_nil. tauto.
Qed.

Lemma getitem_in_SPEED_VALUES value speed :
  py_getitem SPEED_VALUES value = Some speed -> speed ∈ SPEED_VALUES.
Proof.
  intros H. apply SPEED_VALUES_getitem in H. unfold SPEED_VALUES.
  rewrite !elem_of_cons, elem_of_nil in *.
  repeat destruct H as [[= -> ->] | H]; first [by apply elem_of_nil in H | auto 10].
Qed.

(** On a well-formed cache the test [not prev or prev == "off"] says that
    the cached speed is absent or "off". *)
Lemma falsy_or_off_stopped c :
  speed_wf c -> falsy_or_off (c !! K_speed) = true <-> stopped c.
Proof.
  intros Hwf. unfold stopped, falsy_or_off.
  destruct (c !! K_speed) as [v|] eqn:E; simpl.
  - destruct (Hwf v E) as (s & -> & Hs).
    rewrite orb_true_iff, bool_decide_eq_true, negb_true_iff.
    split.
    + intros [H | H]; [exfalso | by right].
      unfold SPEED_VALUES in Hs. rewrite !elem_of_cons, elem_of_nil in Hs.
      destruct Hs as [-> | [-> | [-> | [-> | [-> | []]]]]]; discriminate H.
    + intros [H | H]; [discriminate H | by right].
  - split; auto.
Qed.

Lemma state_key_after_speed (c : cache_t) (v w : pyval) :
  <[K_speed:=v]> (<[K_state:=w]> c) !! K_state = Some w.
Proof. rewrite lookup_insert_ne by done. apply lookup_insert_eq. Qed.

Lemma state_key_unchanged (c : cache_t) (v : pyval) :
  <[K_speed:=v]> c !! K_state = c !! K_state.
Proof. by rewrite lookup_insert_ne. Qed.

Lemma running_not_off speed : running speed -> speed <> "off" /\ speed <> "auto".
Proof.
  unfold running. rewrite !elem_of_cons, elem_of_nil.
  intros [-> | [-> | [-> | []]]]; done.
Qed.

(** ** The derived state *)

(** C1.  For a fan-speed event whose raw value resolves to [speed], on a
    cache whose speed entry is absent or one of the enumerated speeds:
    state=off is published (retained) and cached exactly when the speed is
    off; state=on is published (retained) and cached exactly on the rising
    edge, a resolved speed of low, medium or high while the cached speed is
    absent or off; in every other case the state entry is left as it was
    and nothing is published on the state topic. *)
Theorem C1_state_edge_triggered (c : cache_t) (value : Z) (speed : string) :
  speed_wf c ->
  py_getitem SPEED_VALUES value = Some speed ->
  let r := fan_speed_mode value c in
  let state_pubs := on_topic TOPIC_FAN_STATE (effects_of r) in
  let rising := running speed /\ stopped c in
  outcome r = Ok tt /\
  (state_pub "off" ∈ state_pubs <-> speed = "off") /\
  (speed = "off" ->
     cache_of r !! K_state = Some (VStr "off") /\ state_pubs = [state_pub "off"]) /\
  (state_pub "on" ∈ state_pubs <-> rising) /\
  (rising ->
     cache_of r !! K_state = Some (VStr "on") /\ state_pubs = [state_pub "on"]) /\
  (speed <> "off" -> ~ rising ->
     cache_of r !! K_state = c !! K_state /\ state_pubs = []).
Proof.
  intros Hwf Hget. cbv zeta.
  pose proof (falsy_or_off_stopped c Hwf) as Hstop.
  destruct (speed_cases speed (getitem_in_SPEED_VALUES _ _ Hget)) as [-> | [-> | Hrun]].
  - (* auto *)
    rewrite (fan_speed_mode_auto c value Hget). simpl.
    assert (~ running "auto") as Hn by (intros H; apply running_not_off in H; tauto).
    assert (on_topic TOPIC_FAN_STATE [log_fan_speed value] = []) as -> by reflexivity.
    split_and!.
    + reflexivity.
    + rewrite elem_of_nil. split; [tauto | discriminate].
    + discriminate.
    + rewrite elem_of_nil. tauto.
    + tauto.
    + intros _ _. split; [apply state_key_unchanged | reflexivity].
  - (* off *)
    rewrite (fan_speed_mode_off c value Hget). simpl.
    assert (~ running "off") as Hn by (intros H; apply running_not_off in H; tauto).
    assert (on_topic TOPIC_FAN_STATE
              [log_fan_speed value; log_publish TOPIC_FAN_STATE "off"; Publish (state_pub "off")]
            = [state_pub "off"]) as -> by reflexivity.
    split_and!.
    + reflexivity.
    + rewrite list_elem_of_singleton. tauto.
    + intros _. split; [apply state_key_after_speed | reflexivity].
    + rewrite list_elem_of_singleton. split; [discriminate | tauto].
    + tauto.
    + tauto.
  - (* low, medium, high *)
    destruct (running_not_off speed Hrun) as [Hoff Hauto].
    rewrite (fan_speed_mode_running c value speed Hget Hrun).
    destruct (falsy_or_off (c !! K_speed)) eqn:E; simpl.
    + assert (stopped c) as Hs by (by apply Hstop).
      assert (on_topic TOPIC_FAN_STATE
                [log_fan_speed value; log_publish TOPIC_FAN_STATE "on"; Publish (state_pub "on");
                 log_publish TOPIC_FAN_SPEED speed; Publish (speed_pub speed)]
              = [state_pub "on"]) as -> by reflexivity.
      split_and!.
      * reflexivity.
      * rewrite list_elem_of_singleton. split; [discriminate | tauto].
      * tauto.
      * rewrite list_elem_of_singleton. tauto.
      * intros _. split; [apply state_key_after_speed | reflexivity].
      * tauto.
    + assert (~ stopped c) as Hs by (intros H; apply Hstop in H; congruence).
      assert (on_topic TOPIC_FAN_STATE
                [log_fan_speed value; log_publish TOPIC_FAN_SPEED speed; Publish (speed_pub speed)]
              = []) as -> by reflexivity.
      split_and!.
      * reflexivity.
      * rewrite elem_of_nil. tauto.
      * tauto.
      * rewrite elem_of_nil. tauto.
      * tauto.
      * intros _ _. split; [apply state_key_unchanged | reflexivity].
Qed.

Lemma speed_wf_empty : speed_wf ∅.
Proof. intros v H. rewrite lookup_empty in H. discriminate H. Qed.

Lemma running_low : running "low".
Proof. unfold running. rewrite !elem_of_cons. auto. Qed.

Lemma running_medium : running "medium".
Proof. unfold running. rewrite !elem_of_cons. auto. Qed.

Lemma running_high : running "high".
Proof. unfold running. rewrite !elem_of_cons. auto. Qed.

Lemma stopped_empty : stopped ∅.
Proof. left. apply lookup_empty. Qed.

Lemma C1_state_edge_triggered_witness :
  let r := fan_speed_mode 2 ∅ in
  speed_wf ∅ /\ py_getitem SPEED_VALUES 2 = Some "low" /\
  cache_of r !! K_state = Some (VStr "on") /\
  on_topic TOPIC_FAN_STATE (effects_of r) = [state_pub "on"].
Proof.
  split; [exact speed_wf_empty |]. split; [reflexivity |].
  apply (C1_state_edge_triggered ∅ 2 "low" speed_wf_empty eq_refl).
  split; [exact running_low | exact stopped_empty].
Defined.

(** ** The positional lookup is not guarded *)

(** C3, as the code has it.  [fan_speed_mode] has no bound test: the
    lookup [SPEED_VALUES[value]] is reached for every raw value.  For a
    value below -5 or above 4 it raises IndexError; this happens before any
    cache write and any publication, so the cache is unchanged and nothing
    is published.  A value from -5 to -1 is a valid Python position counted
    from the end, and is handled as the value five above it. *)
Theorem C3_lookup_fault_no_guard (c : cache_t) (value : Z) :
  let r := fan_speed_mode value c in
  (value < -5 \/ 5 <= value ->
     outcome r = Raise IndexError /\ cache_of r = c /\
     publications (effects_of r) = [] /\ control_calls (effects_of r) = []) /\
  (-5 <= value < 0 ->
     let r' := fan_speed_mode (value + 5) c in
     outcome r = outcome r' /\ outcome r = Ok tt /\ cache_of r = cache_of r' /\
     publications (effects_of r) = publications (effects_of r')).
Proof.
  cbv zeta. split.
  - intros H. apply SPEED_VALUES_out_of_range in H.
    rewrite (fan_speed_mode_fault c value H). simpl. auto.
  - intros H.
    assert (value = -5 \/ value = -4 \/ value = -3 \/ value = -2 \/ value = -1) as Hv by lia.
    destruct Hv as [-> | [-> | [-> | [-> | ->]]]];
      unfold fan_speed_mode, bind; simpl;
      try destruct (falsy_or_off (c !! K_speed)); simpl; auto.
Qed.

Lemma C3_lookup_fault_no_guard_witness :
  outcome (fan_speed_mode 7 ∅) = Raise IndexError /\
  cache_of (fan_speed_mode 7 ∅) = ∅ /\
  publications (effects_of (fan_speed_mode 7 ∅)) = [] /\
  control_calls (effects_of (fan_speed_mode 7 ∅)) = [].
Proof.
  apply (C3_lookup_fault_no_guard ∅ 7). right. lia.
Defined.

(** C3, as stated, fails: raw value 5 is not a position of the five-element
    enumeration, no guard rejects it, and the lookup faults. *)
Lemma C3_counterexample :
  py_getitem SPEED_VALUES 5 = None /\
  fan_speed_mode 5 ∅ = Run (Raise IndexError) ∅ [log_fan_speed 5].
Proof. split; reflexivity. Qed.

(** ** The auto speed *)

(** C9.  An event whose raw value resolves to auto publishes nothing (in
    particular nothing on the state topic and nothing on the speed topic),
    leaves every cache entry but "speed" as it was and sets "speed" to
    "auto"; a later event for low, medium or high is then judged against
    that baseline: it publishes its speed and no state. *)
Theorem C9_auto_updates_baseline_only (c : cache_t) (value : Z) :
  py_getitem SPEED_VALUES value = Some "auto" ->
  let r := fan_speed_mode value c in
  outcome r = Ok tt /\
  publications (effects_of r) = [] /\
  on_topic TOPIC_FAN_STATE (effects_of r) = [] /\
  on_topic TOPIC_FAN_SPEED (effects_of r) = [] /\
  cache_of r = <[K_speed:=VStr "auto"]> c /\
  cache_of r !! K_speed = Some (VStr "auto") /\
  (forall value' speed',
     py_getitem SPEED_VALUES value' = Some speed' -> running speed' ->
     publications (effects_of (fan_speed_mode value' (cache_of r))) = [speed_pub speed']).
Proof.
  intros H. cbv zeta. rewrite (fan_speed_mode_auto c value H). simpl.
  split_and!; try reflexivity.
  - apply lookup_insert_eq.
  - intros value' speed' Hget Hrun.
    rewrite (fan_speed_mode_running _ value' speed' Hget Hrun).
    rewrite lookup_insert_eq. reflexivity.
Qed.

Lemma C9_auto_updates_baseline_only_witness :
  py_getitem SPEED_VALUES 0 = Some "auto" /\
  publications (effects_of (fan_speed_mode 0 ∅)) = [] /\
  cache_of (fan_speed_mode 0 ∅) !! K_speed = Some (VStr "auto").
Proof.
  split; [reflexivity |].
  pose proof (C9_auto_updates_baseline_only ∅ 0 eq_refl) as H.
  cbv zeta in H. tauto.
Defined.

(** ** Feeding sequences of speeds *)

(** How many times [p] is among the publications of [es]. *)
Definition times (p : publication) (es : list effect) : nat :=
  length (filter (fun q => q = p) (publications es)).

Lemma feed_off_low c :
  effects_of (feed [1; 2] c) =
    [log_fan_speed 1; log_publish TOPIC_FAN_STATE "off"; Publish (state_pub "off");
     log_fan_speed 2; log_publish TOPIC_FAN_STATE "on"; Publish (state_pub "on");
     log_publish TOPIC_FAN_SPEED "low"; Publish (speed_pub "low")].
Proof.
  unfold feed, bind.
  rewrite (fan_speed_mode_off c 1 eq_refl). simpl.
  rewrite (fan_speed_mode_running _ 2 "low" eq_refl running_low).
  rewrite lookup_insert_eq. reflexivity.
Qed.

Lemma feed_low_medium c :
  effects_of (feed [2; 3] c) =
    effects_of (fan_speed_mode 2 c) ++
    [log_fan_speed 3; log_publish TOPIC_FAN_SPEED "medium"; Publish (speed_pub "medium")].
Proof.
  unfold feed, bind.
  rewrite (fan_speed_mode_running c 2 "low" eq_refl running_low).
  destruct (falsy_or_off (c !! K_speed)); simpl;
    rewrite (fan_speed_mode_running _ 3 "medium" eq_refl running_medium);
    rewrite lookup_insert_eq; reflexivity.
Qed.

(** C8, as the code has it.  Feeding off, low publishes state=on exactly
    once and speed=low exactly once, from any cache.  Feeding low, medium
    publishes speed=medium exactly once and the medium event publishes
    nothing on the state topic; the sequence publishes state=on zero times
    when the cached speed before it is present and not off, and once, at
    low, when the cached speed before it is absent or off. *)
Theorem C8_feed_sequences (c : cache_t) :
  speed_wf c ->
  times (state_pub "on") (effects_of (feed [1; 2] c)) = 1%nat /\
  times (speed_pub "low") (effects_of (feed [1; 2] c)) = 1%nat /\
  times (speed_pub "medium") (effects_of (feed [2; 3] c)) = 1%nat /\
  on_topic TOPIC_FAN_STATE
    (effects_of (fan_speed_mode 3 (cache_of (fan_speed_mode 2 c)))) = [] /\
  (~ stopped c -> times (state_pub "on") (effects_of (feed [2; 3] c)) = 0%nat) /\
  (stopped c -> times (state_pub "on") (effects_of (feed [2; 3] c)) = 1%nat).
Proof.
  intros Hwf. pose proof (falsy_or_off_stopped c Hwf) as Hstop.
  rewrite feed_off_low, feed_low_medium.
  rewrite (fan_speed_mode_running c 2 "low" eq_refl running_low).
  destruct (falsy_or_off (c !! K_speed)) eqn:E; simpl;
    rewrite (fan_speed_mode_running _ 3 "medium" eq_refl running_medium);
    rewrite lookup_insert_eq; simpl.
  - assert (stopped c) as Hs by (by apply Hstop).
    split_and!; try reflexivity; tauto.
  - assert (~ stopped c) as Hs by (intros H; apply Hstop in H; congruence).
    split_and!; try reflexivity; tauto.
Qed.

Lemma C8_feed_sequences_witness :
  speed_wf (<[K_speed:=VStr "low"]> ∅) /\
  times (state_pub "on") (effects_of (feed [1; 2] (<[K_speed:=VStr "low"]> ∅))) = 1%nat /\
  times (speed_pub "medium") (effects_of (feed [2; 3] (<[K_speed:=VStr "low"]> ∅))) = 1%nat.
Proof.
  assert (speed_wf (<[K_speed:=VStr "low"]> ∅)) as Hwf.
  { intros v H. rewrite lookup_insert_eq in H. injection H as <-.
    exists "low". split; [reflexivity |]. unfold SPEED_VALUES. rewrite !elem_of_cons. auto. }
  split; [exact Hwf |].
  pose proof (C8_feed_sequences _ Hwf) as H. tauto.
Defined.

(** C8, as stated, fails on a new handler: feeding low, medium publishes
    state=on once (at low, the cached speed being absent), not zero times. *)
Lemma C8_counterexample :
  times (state_pub "on") (effects_of (feed [2; 3] new_cache)) = 1%nat /\
  on_topic TOPIC_FAN_STATE (effects_of (feed [2; 3] new_cache)) = [state_pub "on"].
Proof. split; reflexivity. Qed.

(** ** The command translator *)

Lemma py_in_spec x l : py_in x l = true <-> x ∈ l.
Proof.
  unfold py_in. rewrite existsb_exists. split.
  - intros (y & Hy & E). apply String.eqb_eq in E. subst y. by apply list_elem_of_In.
  - intros H. exists x. split; [by apply list_elem_of_In | apply String.eqb_refl].
Qed.

Lemma py_in_false x l : py_in x l = false <-> x ∉ l.
Proof.
  rewrite <- py_in_spec. destruct (py_in x l); split; first [done | intros H; by destruct H].
Qed.

Lemma stopped_falsy_or_off c : stopped c -> falsy_or_off (c !! K_speed) = true.
Proof. intros [H | H]; rewrite H; reflexivity. Qed.

Definition log_invalid_speed (value : string) : effect :=
  Log (LogRecord "Invalid fan speed value reveived: {value}" [VStr value]).

Definition log_invalid_state (value : string) : effect :=
  Log (LogRecord "Invalid fan state value reveived: {value}" [VStr value]).

(** C6.  [handle_set_speed] never raises and never publishes.  A payload
    outside the enumeration is logged and dropped without a control call; a
    payload among off, low, medium, high issues exactly one control call,
    with the payload's position in the enumeration (1, 2, 3, 4) as speed
    index; the payload auto is accepted and issues no call. *)
Theorem C6_handle_set_speed (c : cache_t) (value : string) :
  let r := handle_set_speed value c in
  outcome r = Ok tt /\
  (value ∉ SPEED_VALUES -> effects_of r = [log_invalid_speed value]) /\
  (forall pos, (value, pos) ∈ [("off", 1); ("low", 2); ("medium", 3); ("high", 4)] ->
     py_index SPEED_VALUES value = Some pos /\ effects_of r = [SetSpeed pos]) /\
  (value = "auto" -> effects_of r = []).
Proof.
  cbv zeta. unfold handle_set_speed.
  destruct (py_in value SPEED_VALUES) eqn:E; simpl.
  - apply py_in_spec in E. unfold SPEED_VALUES in E.
    rewrite !elem_of_cons, elem_of_nil in E.
    assert (forall v, v ∈ SPEED_VALUES -> v ∉ SPEED_VALUES -> False) as Hin by auto.
    destruct E as [-> | [-> | [-> | [-> | [-> | []]]]]]; simpl;
      (split_and!;
       [ reflexivity
       | intros H; exfalso; apply H; unfold SPEED_VALUES; rewrite !elem_of_cons; auto 10
       | intros pos Hp; rewrite !elem_of_cons, elem_of_nil in Hp;
         destruct Hp as [Hp | [Hp | [Hp | [Hp | []]]]];
         simplify_eq; split; reflexivity
       | intros Hv; first [reflexivity | discriminate Hv] ]).
  - apply py_in_false in E. split_and!.
    + reflexivity.
    + reflexivity.
    + intros pos Hp. exfalso. apply E. unfold SPEED_VALUES.
      rewrite !elem_of_cons, elem_of_nil in Hp. rewrite !elem_of_cons.
      destruct Hp as [Hp | [Hp | [Hp | [Hp | []]]]]; simplify_eq; auto 10.
    + intros ->. exfalso. apply E. unfold SPEED_VALUES. rewrite !elem_of_cons. auto.
Qed.

Lemma C6_handle_set_speed_witness :
  effects_of (handle_set_speed "medium" ∅) = [SetSpeed 3] /\
  effects_of (handle_set_speed "auto" ∅) = [] /\
  effects_of (handle_set_speed "fast" ∅) = [log_invalid_speed "fast"].
Proof.
  split_and!.
  - apply (C6_handle_set_speed ∅ "medium"). rewrite !elem_of_cons. auto.
  - apply (C6_handle_set_speed ∅ "auto"). reflexivity.
  - apply (C6_handle_set_speed ∅ "fast"). apply py_in_false. reflexivity.
Defined.

(** C5.  [handle_set_fan_state] never raises.  A payload outside on, off is
    logged and dropped without a control call; off issues exactly one
    control call, with speed index 1, whatever the cache holds; on issues
    exactly one control call, with speed index 2, when the cached speed is
    absent or off, and no call otherwise. *)
Theorem C5_handle_set_fan_state (c : cache_t) (value : string) :
  speed_wf c ->
  let r := handle_set_fan_state value c in
  outcome r = Ok tt /\
  (value ∉ STATE_VALUES -> effects_of r = [log_invalid_state value]) /\
  (value = "off" -> effects_of r = [SetSpeed 1]) /\
  (value = "on" -> stopped c -> effects_of r = [SetSpeed 2]) /\
  (value = "on" -> ~ stopped c -> effects_of r = []).
Proof.
  intros Hwf. cbv zeta. pose proof (falsy_or_off_stopped c Hwf) as Hstop.
  unfold handle_set_fan_state.
  destruct (py_in value STATE_VALUES) eqn:E; simpl.
  - apply py_in_spec in E. unfold STATE_VALUES in E.
    rewrite !elem_of_cons, elem_of_nil in E.
    destruct E as [-> | [-> | []]]; simpl.
    + unfold bind, cache_get. simpl.
      destruct (falsy_or_off (c !! K_speed)) eqn:F; simpl.
      * assert (stopped c) by (by apply Hstop).
        split_and!; try done.
        intros H0. exfalso. apply H0. unfold STATE_VALUES. rewrite !elem_of_cons. auto.
      * assert (~ stopped c) by (intros H; apply Hstop in H; congruence).
        split_and!; try done.
        intros H0. exfalso. apply H0. unfold STATE_VALUES. rewrite !elem_of_cons. auto.
    + split_and!; try done.
      intros H0. exfalso. apply H0. unfold STATE_VALUES. rewrite !elem_of_cons. auto.
  - apply py_in_false in E. unfold STATE_VALUES in E.
    split_and!; try reflexivity.
    + intros ->. exfalso. apply E. rewrite !elem_of_cons. auto.
    + intros ->. exfalso. apply E. rewrite !elem_of_cons. auto.
    + intros ->. exfalso. apply E. rewrite !elem_of_cons. auto.
Qed.

Lemma C5_handle_set_fan_state_witness :
  speed_wf ∅ /\
  effects_of (handle_set_fan_state "off" ∅) = [SetSpeed 1] /\
  effects_of (handle_set_fan_state "on" ∅) = [SetSpeed 2] /\
  effects_of (handle_set_fan_state "toggle" ∅) = [log_invalid_state "toggle"].
Proof.
  split; [exact speed_wf_empty |]. split_and!.
  - by apply (C5_handle_set_fan_state ∅ "off" speed_wf_empty).
  - apply (C5_handle_set_fan_state ∅ "on" speed_wf_empty); [reflexivity | exact stopped_empty].
  - apply (C5_handle_set_fan_state ∅ "toggle" speed_wf_empty). apply py_in_false. reflexivity.
Defined.

Lemma handle_set_speed_cache c value : cache_of (handle_set_speed value c) = c.
Proof.
  unfold handle_set_speed.
  destruct (negb (py_in value SPEED_VALUES)); [reflexivity |].
  destruct (py_index SPEED_VALUES value) as [pos|]; [| reflexivity].
  destruct (Z.leb 1 pos && Z.leb pos 4); reflexivity.
Qed.

Lemma handle_set_fan_state_cache c value : cache_of (handle_set_fan_state value c) = c.
Proof.
  unfold handle_set_fan_state.
  destruct (negb (py_in value STATE_VALUES)); [reflexivity |].
  destruct (String.eqb value "off"); [reflexivity |].
  unfold bind, cache_get. simpl.
  destruct (falsy_or_off (c !! K_speed)); reflexivity.
Qed.

(** C10.  The two command handlers leave the cache as it was, whatever the
    payload; so a second on command, with no fan-speed event in between,
    issues the same control calls as the first, and when the cached speed is
    absent or off each of the two issues the call for speed index 2. *)
Theorem C10_commands_keep_cache (c : cache_t) (value : string) :
  cache_of (handle_set_speed value c) = c /\
  cache_of (handle_set_fan_state value c) = c /\
  effects_of (handle_set_fan_state "on" (cache_of (handle_set_fan_state "on" c)))
    = effects_of (handle_set_fan_state "on" c) /\
  (stopped c ->
     effects_of ((handle_set_fan_state "on" ;; handle_set_fan_state "on") c)
       = [SetSpeed 2; SetSpeed 2]).
Proof.
  split_and!.
  - apply handle_set_speed_cache.
  - apply handle_set_fan_state_cache.
  - by rewrite handle_set_fan_state_cache.
  - intros Hs. apply stopped_falsy_or_off in Hs.
    unfold bind, handle_set_fan_state, bind, cache_get. simpl.
    rewrite Hs. simpl. rewrite Hs. reflexivity.
Qed.

Lemma C10_commands_keep_cache_witness :
  stopped (<[K_speed:=VStr "off"]> ∅) /\
  effects_of ((handle_set_fan_state "on" ;; handle_set_fan_state "on")
                (<[K_speed:=VStr "off"]> ∅)) = [SetSpeed 2; SetSpeed 2].
Proof.
  assert (stopped (<[K_speed:=VStr "off"]> ∅)) as Hs
    by (right; apply lookup_insert_eq).
  split; [exact Hs |].
  apply (C10_commands_keep_cache _ "on"). exact Hs.
Defined.

(** ** The display decoder *)

Definition log_segments (segments : list string) : effect :=
  Log (LogRecord "Segments: [%s]" [VStr (String.concat "|" segments)]).

Definition log_msg (cmd : Z) (data : list Z) : effect :=
  Log (LogRecord "Msg %#x: [%s]" [VInt cmd; VBytes data]).

(** A cell whose digit pattern is not a key of [ssd_chr]. *)
Definition bad_cell (pos : nat) (val : Z) : Prop :=
  exists digit, digit_at pos val = Some digit /\ ssd_chr digit = None.

Lemma decode_cell_raise pos val e :
  decode_cell pos val = Raise e <-> e = AssertionError /\ bad_cell pos val.
Proof.
  unfold decode_cell, bad_cell.
  destruct (digit_at pos val) as [digit|] eqn:D.
  - destruct (ssd_chr digit) as [ch|] eqn:S.
    + split.
      * destruct (Nat.eqb pos 1); [discriminate |]. destruct (Nat.eqb pos 9); discriminate.
      * intros (_ & d & [= <-] & Hd). congruence.
    + split.
      * intros [= <-]. eauto.
      * intros (-> & _). reflexivity.
  - split; [discriminate |]. intros (_ & d & Hd & _). discriminate.
Qed.

Lemma decode_cells_raise data : forall pos e,
  decode_cells pos data = Raise e <->
  e = AssertionError /\ exists i val, data !! i = Some val /\ bad_cell (pos + i) val.
Proof.
  induction data as [|v data IH]; intros pos e; simpl.
  - split; [discriminate |]. intros (_ & i & val & H & _). discriminate.
  - destruct (decode_cell pos v) as [segs|e0] eqn:C.
    + assert (~ bad_cell pos v) as Hgood.
      { intros Hb. assert (decode_cell pos v = Raise AssertionError) as C'
          by (apply decode_cell_raise; auto). congruence. }
      destruct (decode_cells (S pos) data) as [rest|e1] eqn:R.
      * split; [discriminate |]. intros (_ & i & val & Hi & Hb).
        destruct i as [|i]; simpl in Hi.
        -- injection Hi as <-. rewrite Nat.add_0_r in Hb. contradiction.
        -- assert (decode_cells (S pos) data = Raise AssertionError) as R'.
           { apply IH. split; [reflexivity |]. exists i, val. split; [exact Hi |].
             replace (S pos + i)%nat with (pos + S i)%nat by lia. exact Hb. }
           congruence.
      * apply IH in R. destruct R as (-> & i & val & Hi & Hb).
        split.
        -- intros [= <-]. split; [reflexivity |]. exists (S i), val. split; [exact Hi |].
           replace (pos + S i)%nat with (S pos + i)%nat by lia. exact Hb.
        -- intros (-> & _). reflexivity.
    + apply decode_cell_raise in C. destruct C as (-> & Hb).
      split.
      * intros [= <-]. split; [reflexivity |]. exists 0%nat, v. split; [reflexivity |].
        rewrite Nat.add_0_r. exact Hb.
      * intros (-> & _). reflexivity.
Qed.

Lemma decode_display_data_run data c :
  decode_display_data data c =
    if Nat.eqb (length cc_segments) (length data) then
      match decode_cells 0 data with
      | Ok segments => Run (Ok tt) c [log_segments segments]
      | Raise e => Run (Raise e) c []
      end
    else Run (Ok tt) c [].
Proof.
  unfold decode_display_data.
  destruct (Nat.eqb (length cc_segments) (length data)); [| reflexivity].
  destruct (decode_cells 0 data); reflexivity.
Qed.

Lemma event_run cmd data c :
  event cmd data c =
    if bool_decide (c !! inl cmd = Some (VBytes data)) then Run (Ok tt) c []
    else
      let c' := <[inl cmd:=VBytes data]> c in
      let r := if Z.eqb cmd 0x3c then decode_display_data data c' else Run (Ok tt) c' [] in
      Run (outcome r) (cache_of r) (log_msg cmd data :: effects_of r).
Proof.
  unfold event, bind, cache_get.
  case_bool_decide; [reflexivity |].
  cbv zeta. unfold cache_set, logger_info, emit.
  destruct (Z.eqb cmd 0x3c); [| reflexivity].
  destruct (decode_display_data data (<[inl cmd:=VBytes data]> c)) as [[[]|e] c2 es2];
    reflexivity.
Qed.

(** C7, as the code has it.  For a bitfield of ten cells, when some cell's
    digit pattern is not a key of [ssd_chr] the decoder fails by its
    assertion: it raises AssertionError and logs no segments, no character
    stands in for the pattern.  The frame handler [event] does not catch
    the exception: for a display frame (command 0x3c) that passes the
    change test, [event] itself raises AssertionError to its caller, after
    it has cached the frame and logged it; the same frame arriving again is
    then dropped by the change test.  When every pattern is a key the
    decoder logs the segments once.  A bitfield of another length gives no
    output and no error. *)
Theorem C7_decode_failure_not_caught (data : list Z) (c : cache_t) :
  (length data = 10%nat ->
   (exists i val, data !! i = Some val /\ bad_cell i val) ->
   decode_display_data data c = Run (Raise AssertionError) c [] /\
   (c !! inl 0x3c <> Some (VBytes data) ->
    event 0x3c data c =
      Run (Raise AssertionError) (<[inl 0x3c:=VBytes data]> c) [log_msg 0x3c data] /\
    event 0x3c data (cache_of (event 0x3c data c)) =
      Run (Ok tt) (<[inl 0x3c:=VBytes data]> c) [])) /\
  (length data = 10%nat ->
   ~ (exists i val, data !! i = Some val /\ bad_cell i val) ->
   exists segments,
     decode_cells 0 data = Ok segments /\
     decode_display_data data c = Run (Ok tt) c [log_segments segments]) /\
  (length data <> 10%nat -> decode_display_data data c = Run (Ok tt) c []).
Proof.
  split_and!.
  - intros Hlen Hbad.
    assert (decode_cells 0 data = Raise AssertionError) as Hd
      by (apply decode_cells_raise; auto).
    assert (decode_display_data data c = Run (Raise AssertionError) c []) as Hdec.
    { rewrite decode_display_data_run, Hlen, Hd. reflexivity. }
    split; [exact Hdec |].
    intros Hnew.
    assert (event 0x3c data c =
              Run (Raise AssertionError) (<[inl 0x3c:=VBytes data]> c) [log_msg 0x3c data]) as Hev.
    { rewrite event_run, bool_decide_eq_false_2 by exact Hnew. simpl.
      rewrite decode_display_data_run, Hlen, Hd. reflexivity. }
    split; [exact Hev |].
    rewrite Hev. simpl. rewrite event_run, bool_decide_eq_true_2; [reflexivity |].
    apply lookup_insert_eq.
  - intros Hlen Hgood.
    destruct (decode_cells 0 data) as [segments|e] eqn:Hd.
    + exists segments. split; [reflexivity |].
      rewrite decode_display_data_run, Hlen, Hd. reflexivity.
    + exfalso. apply Hgood. apply decode_cells_raise in Hd. tauto.
  - intros Hlen. rewrite decode_display_data_run.
    destruct (Nat.eqb (length cc_segments) (length data)) eqn:E; [| reflexivity].
    apply Nat.eqb_eq in E. simpl in E. congruence.
Qed.

Lemma C7_decode_failure_not_caught_witness :
  let data := [0; 2; 0; 0; 0; 0; 0; 0; 0; 0] in
  decode_display_data data ∅ = Run (Raise AssertionError) ∅ [] /\
  event 0x3c data ∅ =
    Run (Raise AssertionError) (<[inl 0x3c:=VBytes data]> ∅) [log_msg 0x3c data] /\
  decode_display_data [0; 2] ∅ = Run (Ok tt) ∅ [].
Proof.
  cbv zeta.
  assert (exists i val, [0; 2; 0; 0; 0; 0; 0; 0; 0; 0] !! i = Some val /\ bad_cell i val) as Hbad.
  { exists 1%nat, 2. split; [reflexivity |]. exists 2. split; reflexivity. }
  destruct (C7_decode_failure_not_caught [0; 2; 0; 0; 0; 0; 0; 0; 0; 0] ∅) as (H1 & _ & _).
  destruct (H1 eq_refl Hbad) as (Hd & He).
  destruct (C7_decode_failure_not_caught [0; 2] ∅) as (_ & _ & H3).
  split_and!.
  - exact Hd.
  - apply He. rewrite lookup_empty. discriminate.
  - apply H3. simpl. lia.
Defined.

(** C7, as stated, fails: the frame handler does not isolate a failed
    decode.  For the display frame below (cell 1 holds 2, whose pattern 2
    is not a key of the table) [event] raises AssertionError. *)
Lemma C7_counterexample :
  digit_at 1 2 = Some 2 /\ ssd_chr 2 = None /\
  outcome (event 0x3c [0; 2; 0; 0; 0; 0; 0; 0; 0; 0] new_cache) = Raise AssertionError.
Proof. split_and!; reflexivity. Qed.

(** ** The change test *)

Definition temp_outside_effects (value : pyval) : list effect :=
  [Log (LogRecord "Outside temperature: %s" [value]);
   Log (LogRecord "Publish outside temperature: {%s/%s}" [VStr TOPIC_TEMP_OUTSIDE; value]);
   Publish (Publication TOPIC_TEMP_OUTSIDE value 0 false)].

Definition airflow_exhaust_effects (value : pyval) : list effect :=
  [Log (LogRecord "Airflow exhaust: %s" [value]);
   Log (LogRecord "Publish airflow exhaust: {%s/%s}" [VStr TOPIC_AIRFLOW_EXHAUST; value]);
   Publish (Publication TOPIC_AIRFLOW_EXHAUST value 0 false)].

Definition airflow_supply_effects (value : pyval) : list effect :=
  [Log (LogRecord "Airflow supply: %s" [value]);
   Log (LogRecord "Publish airflow supply: {%s/%s}" [VStr TOPIC_AIRFLOW_SUPPLY; value]);
   Publish (Publication TOPIC_AIRFLOW_SUPPLY value 0 false)].

(** C2, as the code has it.  Only raw frames go through the cache, in
    [event]: a frame equal to the cached payload of its command id returns
    without any effect; a frame that differs from it, or whose command id
    has no cached payload, is cached and logged exactly once (and decoded
    when it is a display frame), and nothing is published to MQTT.  The
    attribute listeners for the outside temperature and the two airflows
    neither read nor write the cache: each event publishes its value
    exactly once, a repeated value too. *)
Theorem C2_change_test (c : cache_t) (cmd : Z) (data : list Z) (value : pyval) :
  (c !! inl cmd = Some (VBytes data) -> event cmd data c = Run (Ok tt) c []) /\
  (c !! inl cmd <> Some (VBytes data) ->
   let r := event cmd data c in
   cache_of r = <[inl cmd:=VBytes data]> c /\
   publications (effects_of r) = [] /\
   control_calls (effects_of r) = [] /\
   exists rest, effects_of r = log_msg cmd data :: rest /\ log_msg cmd data ∉ rest) /\
  temp_outside_event value c = Run (Ok tt) c (temp_outside_effects value) /\
  airflow_exhaust value c = Run (Ok tt) c (airflow_exhaust_effects value) /\
  airflow_supply value c = Run (Ok tt) c (airflow_supply_effects value).
Proof.
  split_and!; try reflexivity.
  - intros H. rewrite event_run, bool_decide_eq_true_2 by exact H. reflexivity.
  - intros H. cbv zeta. rewrite event_run, bool_decide_eq_false_2 by exact H.
    cbv zeta. destruct (Z.eqb cmd 0x3c); simpl.
    + rewrite decode_display_data_run.
      destruct (Nat.eqb (length cc_segments) (length data)); simpl.
      * destruct (decode_cells 0 data) as [segments|e]; simpl.
        -- split_and!; try reflexivity. eexists. split; [reflexivity |].
           rewrite list_elem_of_singleton. discriminate.
        -- split_and!; try reflexivity. eexists. split; [reflexivity |]. apply not_elem_of_nil.
      * split_and!; try reflexivity. eexists. split; [reflexivity |]. apply not_elem_of_nil.
    + split_and!; try reflexivity. eexists. split; [reflexivity |]. apply not_elem_of_nil.
Qed.

Lemma C2_change_test_witness :
  event 7 [1; 2] (<[inl 7:=VBytes [1; 2]]> ∅) = Run (Ok tt) (<[inl 7:=VBytes [1; 2]]> ∅) [] /\
  cache_of (event 7 [1; 2] ∅) = <[inl 7:=VBytes [1; 2]]> ∅.
Proof.
  split.
  - apply (C2_change_test _ 7 [1; 2] (VInt 0)). apply lookup_insert_eq.
  - apply (C2_change_test ∅ 7 [1; 2] (VInt 0)). rewrite lookup_empty. discriminate.
Defined.

(** C2, as stated, fails twice over.  A frame whose command id has no
    cached payload is not republished: [event] publishes nothing.  And an
    outside temperature equal to the one just before it is published
    again: the listener keeps no cached value to compare with. *)
Lemma C2_counterexample :
  publications (effects_of (event 0x3c [1; 2; 3] new_cache)) = [] /\
  publications
    (effects_of ((temp_outside_event (VInt 20) ;; temp_outside_event (VInt 20)) new_cache))
  = [Publication TOPIC_TEMP_OUTSIDE (VInt 20) 0 false;
     Publication TOPIC_TEMP_OUTSIDE (VInt 20) 0 false].
Proof. split; reflexivity. Qed.

(** * The bridge supervisor

    [mqtt_connection] loops for ever; one turn of its loop builds a new
    MQTT client and a new handler, connects, announces the entities,
    attaches the handler's listeners to the device and then serves inbound
    messages until the transport raises MqttError, upon which the
    listeners are detached and, after a pause, the next turn starts.

    What the collaborators do in a turn is given by a script: where the
    transport fails, and which device events and inbound messages arrive.
    The model runs a finite list of turns. *)

(** The bound methods of a handler that are registered as listeners. *)
Inductive callback :=
  | h_event
  | h_airflow_exhaust
  | h_airflow_supply
  | h_fan_speed_mode
  | h_temp_outside_event
  | h_cooked_event.

#[global] Instance callback_eq_dec : EqDecision callback.
Proof. solve_decision. Defined.

(** Where a listener is registered: [add_listener] (raw frames) or
    [add_cooked_listener(attribute, _)]. *)
Inductive slot :=
  | Raw
  | Cooked (a : attribute_id).

#[global] Instance slot_eq_dec : EqDecision slot.
Proof. solve_decision. Defined.

(** A registered listener: its slot, and the method [cb] of the handler
    created in turn [g] of the loop. *)
Definition listener : Type := slot * (nat * callback).

(** [add_ca_listeners(ca, h)], for the handler [h] of turn [g] *)
Definition ca_listeners (g : nat) : list listener :=
  [(Raw, (g, h_event));
   (Cooked AIRFLOW_EXHAUST, (g, h_airflow_exhaust));
   (Cooked AIRFLOW_SUPPLY, (g, h_airflow_supply));
   (Cooked FAN_SPEED_MODE, (g, h_fan_speed_mode));
   (Cooked TEMP_OUTSIDE, (g, h_temp_outside_event));
   (Cooked TEMP_COMFORT, (g, h_cooked_event));
   (Cooked TEMP_RETURN, (g, h_cooked_event));
   (Cooked TEMP_EXHAUST, (g, h_cooked_event));
   (Cooked TEMP_SUPPLY, (g, h_cooked_event))].

(** What the device library hands to its listeners. *)
Inductive device_input :=
  | RawFrame (cmd : Z) (data : list Z)
  | Attribute (a : attribute_id) (value : pyval).

Definition slot_of (d : device_input) : slot :=
  match d with
  | RawFrame _ _ => Raw
  | Attribute a _ => Cooked a
  end.

(** Calling the listener [cb] with the input [d].  The fan speed is an
    integer of the device; a listener is only called with inputs of its
    slot, the other cases are not reached. *)
Definition invoke (cb : callback) (d : device_input) : M unit :=
  match cb, d with
  | h_event, RawFrame cmd data => event cmd data
  | h_airflow_exhaust, Attribute _ value => airflow_exhaust value
  | h_airflow_supply, Attribute _ value => airflow_supply value
  | h_fan_speed_mode, Attribute _ (VInt value) => fan_speed_mode value
  | h_temp_outside_event, Attribute _ value => temp_outside_event value
  | h_cooked_event, Attribute a value => cooked_event a value
  | _, _ => ret tt
  end.

(** The dict given to [handle_mqtt_message]: topic to command handler. *)
Definition command_handlers (t : string) : option (string -> M unit) :=
  if String.eqb t TOPIC_SET_FAN_SPEED then Some handle_set_speed
  else if String.eqb t TOPIC_SET_FAN_STATE then Some handle_set_fan_state
  else None.

(** What arrives while the bridge is up. *)
Inductive input :=
  | FromDevice (d : device_input)
  | FromBroker (t : string) (value : string).

(** Where the transport raises MqttError in a turn. *)
Inductive fate :=
  | ConnectRaises                    (* in mqtt.connect() *)
  | ConfigRaises (sent : nat)        (* in send_ha_config, after [sent] documents *)
  | OnlineRaises                     (* in the availability publish *)
  | Session (inputs : list input).   (* in handle_mqtt_message, after [inputs] *)

Record turn := Turn {
  before : list device_input;   (* device events that arrive before the attach *)
  what : fate
}.

(** The calls to the MQTT client outside the handlers. *)
Inductive mqtt_call :=
  | Connect
  | Announce (t : string)       (* a discovery document of send_ha_config *)
  | Online                      (* publish(TOPIC_AVAILABILITY, "Online", retain=True) *)
  | Subscribe (t : string).

(** What happened, in order.  [AAttach] records the cache the handler has
    at the moment its listeners are attached. *)
Inductive action :=
  | ANewHandler (g : nat)
  | AMqtt (m : mqtt_call)
  | AMqttError
  | AAttach (g : nat) (cache_then : cache_t)
  | ADetach (g : nat)
  | ADelivered (g : nat) (cb : callback) (d : device_input) (r : run unit)
  | ACommand (g : nat) (t value : string) (r : run unit)
  | ASleep
  | AFatal (e : exn).

Record bridge := Bridge {
  handlers : list cache_t;        (* the cache of every handler created, by turn *)
  listeners : list listener;      (* the listeners registered with the device *)
  trace : list action;
  crashed : bool                  (* an exception other than MqttError left the loop *)
}.

Definition init : bridge := Bridge [] [] [] false.

Definition config_topics : list string :=
  ["homeassistant/fan/ComfoAir/config";
   "homeassistant/sensor/ComfoAir_temp/config";
   "homeassistant/sensor/ComfoAir_airflow_supply/config";
   "homeassistant/sensor/ComfoAir_airflow_exhaust/config"].

(** One listener called with [d]: its handler's cache is updated in place. *)
Definition deliver (d : device_input) (b : bridge) (l : listener) : bridge :=
  let '(s, (g, cb)) := l in
  if decide (s = slot_of d) then
    match handlers b !! g with
    | Some c =>
        let r := invoke cb d c in
        Bridge (<[g:=cache_of r]> (handlers b)) (listeners b)
               (trace b ++ [ADelivered g cb d r]) (crashed b)
    | None => b
    end
  else b.

(** A device event: every registered listener of its slot is called. *)
Definition dispatch (b : bridge) (d : device_input) : bridge :=
  foldl (deliver d) b (listeners b).

(** An inbound message, [await handlers[topic](value, ca)] for the handler
    [g] of this turn; an unknown topic is a KeyError, which leaves the loop. *)
Definition command (g : nat) (t value : string) (b : bridge) : bridge :=
  match command_handlers t, handlers b !! g with
  | Some f, Some c =>
      let r := f value c in
      Bridge (<[g:=cache_of r]> (handlers b)) (listeners b)
             (trace b ++ [ACommand g t value r]) (crashed b)
  | _, _ => Bridge (handlers b) (listeners b) (trace b ++ [AFatal KeyError]) true
  end.

Fixpoint serve (g : nat) (inputs : list input) (b : bridge) : bridge :=
  match inputs with
  | [] => b
  | i :: inputs' =>
      if crashed b then b
      else serve g inputs'
             match i with
             | FromDevice d => dispatch b d
             | FromBroker t value => command g t value b
             end
  end.

(** Removing the first registration equal to [l]; [None] when there is none. *)
Fixpoint remove_listener (l : listener) (ls : list listener) : option (list listener) :=
  match ls with
  | [] => None
  | l' :: ls' =>
      if decide (l' = l) then Some ls'
      else cons l' <$> remove_listener l ls'
  end.

(** [remove_ca_listeners(ca, h)].  Whether removing a listener that is not
    registered raises is the device library's business: [strict] says so. *)
Fixpoint remove_all (strict : bool) (ls : list listener) (registered : list listener)
  : option (list listener) :=
  match ls with
  | [] => Some registered
  | l :: ls' =>
      match remove_listener l registered with
      | Some registered' => remove_all strict ls' registered'
      | None => if strict then None else remove_all strict ls' registered
      end
  end.

(** The [except MqttError] clause of turn [g]. *)
Definition on_mqtt_error (strict : bool) (g : nat) (b : bridge) : bridge :=
  if crashed b then b
  else
    match remove_all strict (ca_listeners g) (listeners b) with
    | Some ls => Bridge (handlers b) ls (trace b ++ [AMqttError; ADetach g; ASleep]) false
    | None => Bridge (handlers b) (listeners b) (trace b ++ [AMqttError; AFatal ValueError]) true
    end.

Definition log_action (a : list action) (b : bridge) : bridge :=
  Bridge (handlers b) (listeners b) (trace b ++ a) (crashed b).

(** [h = ComfoAirHandler(mqtt)]: the handler of the turn, with its own,
    empty cache. *)
Definition new_handler (b : bridge) : bridge :=
  Bridge (handlers b ++ [new_cache]) (listeners b)
         (trace b ++ [ANewHandler (length (handlers b))]) false.

(** [add_ca_listeners(ca, h)] for the handler of turn [g] *)
Definition attach (g : nat) (b : bridge) : bridge :=
  Bridge (handlers b) (listeners b ++ ca_listeners g)
         (trace b ++ [AAttach g (default ∅ (handlers b !! g))]) (crashed b).

Definition announced (n : nat) : list action :=
  AMqtt Connect :: (AMqtt ∘ Announce <$> take n config_topics).

Definition subscribed : list action :=
  [AMqtt (Subscribe TOPIC_SET_FAN_SPEED); AMqtt (Subscribe TOPIC_SET_FAN_STATE)].

(** The body of [try], from [mqtt.connect()] to the MqttError. *)
Definition establish (g : nat) (f : fate) (b : bridge) : bridge :=
  match f with
  | ConnectRaises => b
  | ConfigRaises sent => log_action (announced sent) b
  | OnlineRaises => log_action (announced 4) b
  | Session inputs =>
      let b := log_action (announced 4 ++ [AMqtt Online]) b in
      let b := attach g b in
      let b := log_action subscribed b in
      serve g inputs b
  end.

(** One turn of the loop. *)
Definition run_turn (strict : bool) (t : turn) (b : bridge) : bridge :=
  if crashed b then b
  else
    let g := length (handlers b) in
    let b := new_handler b in
    let b := foldl dispatch b (before t) in
    let b := establish g (what t) b in
    on_mqtt_error strict g b.

(** The loop, for the turns of the script. *)
Definition mqtt_connection (strict : bool) (script : list turn) (b : bridge) : bridge :=
  foldl (fun b t => run_turn strict t b) b script.

(** ** What the steps of a turn keep *)

(** An action that neither creates a handler nor attaches listeners. *)
Definition quiet (a : action) : Prop :=
  match a with
  | ANewHandler _ | AAttach _ _ => False
  | _ => True
  end.

(** [b'] comes after [b] with the same handlers in number, the same
    listeners, and only quiet actions added to the trace. *)
Definition extends (b b' : bridge) : Prop :=
  length (handlers b') = length (handlers b) /\
  listeners b' = listeners b /\
  exists ext, trace b' = trace b ++ ext /\ Forall quiet ext.

Lemma extends_refl b : extends b b.
Proof.
  split_and!; try reflexivity. exists []. split; [by rewrite app_nil_r | constructor].
Qed.

Lemma extends_trans b1 b2 b3 : extends b1 b2 -> extends b2 b3 -> extends b1 b3.
Proof.
  intros (H1 & L1 & e1 & T1 & Q1) (H2 & L2 & e2 & T2 & Q2).
  split_and!; try congruence.
  exists (e1 ++ e2). split.
  - rewrite T2, T1. by rewrite <- app_assoc.
  - by apply Forall_app.
Qed.

Lemma deliver_extends d b l : extends b (deliver d b l).
Proof.
  destruct l as [s [g cb]]. unfold deliver.
  destruct (decide (s = slot_of d)); [| apply extends_refl].
  destruct (handlers b !! g) as [c|]; [| apply extends_refl].
  split_and!; simpl.
  - apply length_insert.
  - reflexivity.
  - eexists. split; [reflexivity |]. repeat constructor.
Qed.

Lemma foldl_deliver_extends d ls : forall b, extends b (foldl (deliver d) b ls).
Proof.
  induction ls as [|l ls IH]; intros b; simpl; [apply extends_refl |].
  eapply extends_trans; [apply deliver_extends | apply IH].
Qed.

Lemma dispatch_extends b d : extends b (dispatch b d).
Proof. apply foldl_deliver_extends. Qed.

Lemma command_extends g t value b : extends b (command g t value b).
Proof.
  unfold command.
  destruct (command_handlers t) as [f|]; [destruct (handlers b !! g) as [c|] |];
    (split_and!; simpl;
     [ first [apply length_insert | reflexivity] | reflexivity
     | eexists; split; [reflexivity | repeat constructor] ]).
Qed.

Lemma serve_extends g inputs : forall b, extends b (serve g inputs b).
Proof.
  induction inputs as [|i inputs IH]; intros b; simpl; [apply extends_refl |].
  destruct (crashed b); [apply extends_refl |].
  eapply extends_trans; [| apply IH].
  destruct i; [apply dispatch_extends | apply command_extends].
Qed.

Lemma foldl_dispatch_extends ds : forall b, extends b (foldl dispatch b ds).
Proof.
  induction ds as [|d ds IH]; intros b; simpl; [apply extends_refl |].
  eapply extends_trans; [apply dispatch_extends | apply IH].
Qed.

(** With no listener registered a device event does nothing. *)
Lemma foldl_dispatch_unheard ds : forall b, listeners b = [] -> foldl dispatch b ds = b.
Proof.
  induction ds as [|d ds IH]; intros b Hl; simpl; [reflexivity |].
  assert (dispatch b d = b) as -> by (unfold dispatch; rewrite Hl; reflexivity).
  by apply IH.
Qed.

Lemma remove_listener_head l ls : remove_listener l (l :: ls) = Some ls.
Proof. simpl. by rewrite decide_True. Qed.

(** Detaching the listeners that were attached to a device without
    listeners leaves it without listeners. *)
Lemma remove_all_self strict ls : remove_all strict ls ls = Some [].
Proof.
  induction ls as [|l ls IH]; simpl; [reflexivity |].
  rewrite decide_True by reflexivity. exact IH.
Qed.

(** ** The shape of a turn *)

Definition is_mqtt (a : action) : Prop :=
  match a with
  | AMqtt _ => True
  | _ => False
  end.

(** How many times the handler of turn [g] was created in [t]. *)
Fixpoint created (g : nat) (t : list action) : nat :=
  match t with
  | [] => 0
  | ANewHandler g' :: t' => (if Nat.eqb g' g then 1 else 0) + created g t'
  | _ :: t' => created g t'
  end.

Lemma created_app g t1 t2 : created g (t1 ++ t2) = (created g t1 + created g t2)%nat.
Proof.
  induction t1 as [|a t1 IH]; simpl; [reflexivity |].
  destruct a; simpl; rewrite IH; lia.
Qed.

Lemma created_quiet g t : Forall quiet t -> created g t = 0%nat.
Proof.
  induction 1 as [|a t Ha _ IH]; simpl; [reflexivity |].
  destruct a; simpl in *; done.
Qed.

Lemma is_mqtt_quiet t : Forall is_mqtt t -> Forall quiet t.
Proof. intros H. eapply Forall_impl; [exact H |]. intros []; simpl; done. Qed.

Lemma quiet_no_attach t g c : Forall quiet t -> AAttach g c ∉ t.
Proof.
  intros H Hin. rewrite Forall_forall in H. apply (H _ Hin).
Qed.

Lemma announce_is_mqtt ts : Forall is_mqtt (AMqtt ∘ Announce <$> ts).
Proof. apply Forall_fmap, Forall_true. intros t. exact I. Qed.

Lemma on_mqtt_error_unattached strict g b :
  crashed b = false -> listeners b = [] ->
  let b' := on_mqtt_error strict g b in
  handlers b' = handlers b /\ listeners b' = [] /\
  exists ext, trace b' = trace b ++ ext /\ Forall quiet ext.
Proof.
  intros Hc Hl. unfold on_mqtt_error. rewrite Hc, Hl.
  destruct strict; simpl; (split_and!; [reflexivity | done | ]);
    eexists; (split; [reflexivity | repeat constructor]).
Qed.

Lemma on_mqtt_error_attached strict g b :
  listeners b = ca_listeners g ->
  let b' := on_mqtt_error strict g b in
  handlers b' = handlers b /\ (crashed b' = false -> listeners b' = []) /\
  exists ext, trace b' = trace b ++ ext /\ Forall quiet ext.
Proof.
  intros Hl. unfold on_mqtt_error.
  destruct (crashed b) eqn:Hc.
  - cbv zeta. rewrite Hc. split_and!; [reflexivity | discriminate |].
    exists []. split; [by rewrite app_nil_r | constructor].
  - rewrite Hl, remove_all_self. simpl. split_and!; [reflexivity | done |].
    eexists. split; [reflexivity | repeat constructor].
Qed.

(** One turn, started with no listener registered: it creates exactly one
    handler, the next in number, with an empty cache; if it attaches
    listeners at all, it attaches those of that handler, once, after MQTT
    calls only, the cache being still empty; and if the loop goes on, no
    listener stays registered. *)
Lemma run_turn_shape strict t b :
  crashed b = false -> listeners b = [] ->
  let g := length (handlers b) in
  let b' := run_turn strict t b in
  length (handlers b') = S g /\
  (crashed b' = false -> listeners b' = []) /\
  exists ext, Forall quiet ext /\
    (trace b' = trace b ++ ANewHandler g :: ext \/
     exists m, Forall is_mqtt m /\
       trace b' = trace b ++ ANewHandler g :: m ++ AAttach g ∅ :: ext).
Proof.
  intros Hc Hl. cbv zeta. unfold run_turn. rewrite Hc.
  set (g := length (handlers b)).
  assert (listeners (new_handler b) = []) as Hl0 by exact Hl.
  rewrite (foldl_dispatch_unheard (before t) (new_handler b) Hl0).
  assert (length (handlers (new_handler b)) = S g) as Hlen
    by (simpl; rewrite length_app; simpl; subst g; lia).
  assert (trace (new_handler b) = trace b ++ [ANewHandler g]) as Ht0 by reflexivity.
  assert (forall n, Forall is_mqtt (announced n)) as Hann
    by (intros n; constructor; [exact I | apply announce_is_mqtt]).
  destruct (what t) as [ | sent | | inputs ]; unfold establish; cbv zeta.
  - destruct (on_mqtt_error_unattached strict g (new_handler b) eq_refl Hl0)
      as (Hh & Hls & ext & Ht & Hq).
    split_and!.
    + by rewrite Hh.
    + done.
    + exists ext. split; [exact Hq |]. left. rewrite Ht, Ht0. by rewrite <- app_assoc.
  - destruct (on_mqtt_error_unattached strict g
                (log_action (announced sent) (new_handler b)) eq_refl Hl0)
      as (Hh & Hls & ext & Ht & Hq).
    split_and!.
    + by rewrite Hh.
    + done.
    + exists (announced sent ++ ext). split.
      * apply Forall_app. split; [| exact Hq]. apply is_mqtt_quiet, Hann.
      * left. rewrite Ht. simpl trace. rewrite <- !app_assoc. reflexivity.
  - destruct (on_mqtt_error_unattached strict g
                (log_action (announced 4) (new_handler b)) eq_refl Hl0)
      as (Hh & Hls & ext & Ht & Hq).
    split_and!.
    + by rewrite Hh.
    + done.
    + exists (announced 4 ++ ext). split.
      * apply Forall_app. split; [| exact Hq]. apply is_mqtt_quiet, Hann.
      * left. rewrite Ht. simpl trace. rewrite <- !app_assoc. reflexivity.
  - set (b1 := log_action (announced 4 ++ [AMqtt Online]) (new_handler b)).
    set (b2 := log_action subscribed (attach g b1)).
    assert (handlers b1 !! g = Some ∅) as Hnew
      by (simpl; subst g; apply list_lookup_middle; reflexivity).
    assert (listeners b2 = ca_listeners g) as Hl2 by (simpl; rewrite Hl; reflexivity).
    assert (trace b2 = trace b ++ ANewHandler g :: (announced 4 ++ [AMqtt Online])
                         ++ AAttach g ∅ :: subscribed) as Ht2.
    { unfold b2, attach, log_action at 1. cbn [trace]. rewrite Hnew. cbn [default].
      unfold b1, log_action. cbn [trace]. rewrite Ht0, <- !app_assoc. reflexivity. }
    destruct (serve_extends g inputs b2) as (Hsl & Hsls & e1 & Hst & Hsq).
    rewrite Hl2 in Hsls.
    destruct (on_mqtt_error_attached strict g (serve g inputs b2) Hsls)
      as (Hh & Hls & e2 & Ht & Hq).
    split_and!.
    + rewrite Hh, Hsl. exact Hlen.
    + exact Hls.
    + exists (subscribed ++ e1 ++ e2). split.
      * apply Forall_app. split; [repeat constructor |]. by apply Forall_app.
      * right. exists (announced 4 ++ [AMqtt Online]). split.
        -- apply Forall_app. split; [apply Hann | repeat constructor].
        -- rewrite Ht, Hst, Ht2. rewrite <- ?app_assoc. simpl. rewrite <- ?app_assoc.
           reflexivity.
Qed.

(** ** The invariant of the loop *)

Definition loop_inv (b : bridge) : Prop :=
  (crashed b = false -> listeners b = []) /\
  (forall g, (length (handlers b) <= g)%nat -> created g (trace b) = 0%nat) /\
  (forall g c, AAttach g c ∈ trace b ->
     c = ∅ /\ created g (trace b) = 1%nat /\
     exists l1 l2 l3,
       trace b = l1 ++ ANewHandler g :: l2 ++ AAttach g c :: l3 /\ Forall is_mqtt l2).

Lemma loop_inv_init : loop_inv init.
Proof.
  split_and!; try done. intros g c H. simpl in H. by apply elem_of_nil in H.
Qed.

Lemma created_tail g g' m c ext :
  Forall is_mqtt m -> Forall quiet ext ->
  created g' (m ++ AAttach g c :: ext) = 0%nat.
Proof.
  intros Hm He. rewrite created_app. simpl.
  rewrite (created_quiet _ _ (is_mqtt_quiet _ Hm)), (created_quiet _ _ He). reflexivity.
Qed.

Lemma loop_inv_turn strict t b : loop_inv b -> loop_inv (run_turn strict t b).
Proof.
  intros Hinv.
  destruct (crashed b) eqn:Hc.
  { unfold run_turn. rewrite Hc. exact Hinv. }
  destruct Hinv as (Il & Ic & Ia).
  destruct (run_turn_shape strict t b Hc (Il Hc)) as (Hlen & Hls & ext & Hq & Ht).
  set (g := length (handlers b)) in *.
  assert (created g (trace b) = 0%nat) as Hg0 by (apply Ic; subst g; lia).
  assert (forall g' c, AAttach g' c ∈ trace b -> g' <> g) as Hold.
  { intros g' c Hin ->. destruct (Ia _ _ Hin) as (_ & H1 & _). lia. }
  split_and!.
  - exact Hls.
  - intros g' Hg'. rewrite Hlen in Hg'.
    assert (created g' (trace b) = 0%nat) as H0 by (apply Ic; subst g; lia).
    assert (Nat.eqb g g' = false) as Hne by (apply Nat.eqb_neq; lia).
    destruct Ht as [-> | (m & Hm & ->)]; rewrite created_app; simpl; rewrite H0, Hne; simpl.
    + by apply created_quiet.
    + by apply created_tail.
  - intros g' c Hin.
    destruct Ht as [Ht | (m & Hm & Ht)]; rewrite Ht in Hin |- *;
      apply elem_of_app in Hin; destruct Hin as [Hin | Hin].
    + destruct (Ia _ _ Hin) as (-> & H1 & l1 & l2 & l3 & Hd & Hm).
      assert (Nat.eqb g g' = false) as Hne
        by (apply Nat.eqb_neq; intros <-; by apply (Hold g ∅)).
      split_and!; [reflexivity | |].
      * rewrite created_app. simpl. rewrite H1, Hne, (created_quiet _ _ Hq). reflexivity.
      * exists l1, l2, (l3 ++ ANewHandler g :: ext). split; [| exact Hm].
        rewrite Hd. rewrite <- !app_assoc. simpl. rewrite <- !app_assoc. reflexivity.
    + exfalso. apply elem_of_cons in Hin. destruct Hin as [Hin | Hin]; [discriminate Hin |].
      by apply (quiet_no_attach ext g' c).
    + destruct (Ia _ _ Hin) as (-> & H1 & l1 & l2 & l3 & Hd & Hm2).
      assert (Nat.eqb g g' = false) as Hne
        by (apply Nat.eqb_neq; intros <-; by apply (Hold g ∅)).
      split_and!; [reflexivity | |].
      * rewrite created_app. simpl. rewrite H1, Hne, (created_tail _ _ _ _ _ Hm Hq).
        reflexivity.
      * exists l1, l2, (l3 ++ ANewHandler g :: m ++ AAttach g ∅ :: ext). split; [| exact Hm2].
        rewrite Hd. rewrite <- !app_assoc. simpl. rewrite <- !app_assoc. reflexivity.
    + apply elem_of_cons in Hin. destruct Hin as [Hin | Hin]; [discriminate Hin |].
      apply elem_of_app in Hin. destruct Hin as [Hin | Hin].
      { exfalso. by apply (quiet_no_attach m g' c (is_mqtt_quiet _ Hm)). }
      apply elem_of_cons in Hin. destruct Hin as [Hin | Hin];
        [| exfalso; by apply (quiet_no_attach ext g' c)].
      injection Hin as -> ->.
      split_and!; [reflexivity | |].
      * rewrite created_app. simpl. rewrite Hg0, Nat.eqb_refl, (created_tail _ _ _ _ _ Hm Hq).
        reflexivity.
      * exists (trace b), m, ext. split; [reflexivity | exact Hm].
Qed.

Lemma loop_inv_script strict script : forall b,
  loop_inv b -> loop_inv (mqtt_connection strict script b).
Proof.
  induction script as [|t script IH]; intros b Hb; simpl; [exact Hb |].
  apply IH. by apply loop_inv_turn.
Qed.

(** ** The first frame of a session *)

Lemma decode_display_data_cache data c : cache_of (decode_display_data data c) = c.
Proof.
  rewrite decode_display_data_run.
  destruct (Nat.eqb (length cc_segments) (length data)); [| reflexivity].
  destruct (decode_cells 0 data); reflexivity.
Qed.

Lemma event_cache cmd data c :
  cache_of (event cmd data c) = c \/
  cache_of (event cmd data c) = <[inl cmd:=VBytes data]> c.
Proof.
  rewrite event_run. case_bool_decide; [by left | right]. cbv zeta. simpl.
  destruct (Z.eqb cmd 0x3c); [apply decode_display_data_cache | reflexivity].
Qed.

Lemma fan_speed_mode_int_keys value c (k : Z) :
  cache_of (fan_speed_mode value c) !! inl k = c !! inl k.
Proof.
  destruct (py_getitem SPEED_VALUES value) as [speed|] eqn:E.
  - destruct (speed_cases speed (getitem_in_SPEED_VALUES _ _ E)) as [-> | [-> | Hrun]].
    + rewrite (fan_speed_mode_auto c value E). simpl. by rewrite lookup_insert_ne.
    + rewrite (fan_speed_mode_off c value E). simpl. by rewrite !lookup_insert_ne.
    + rewrite (fan_speed_mode_running c value speed E Hrun).
      destruct (falsy_or_off (c !! K_speed)); simpl; by rewrite !lookup_insert_ne.
  - by rewrite (fan_speed_mode_fault c value E).
Qed.

(** A listener called with anything but a frame of command [cmd] leaves
    the cache entry of [cmd] as it was. *)
Lemma invoke_keeps_key cb d c (cmd : Z) :
  (forall data, d <> RawFrame cmd data) ->
  cache_of (invoke cb d c) !! inl cmd = c !! inl cmd.
Proof.
  intros Hd. destruct d as [cmd' data | a value].
  - destruct cb; try reflexivity. simpl.
    destruct (event_cache cmd' data c) as [-> | ->]; [reflexivity |].
    apply lookup_insert_ne. intros [= ->]. by apply (Hd data).
  - destruct cb; try reflexivity. simpl.
    destruct value; try reflexivity. apply fan_speed_mode_int_keys.
Qed.

(** The handler of turn [g] has no cached payload for command [cmd]. *)
Definition unseen (g : nat) (cmd : Z) (b : bridge) : Prop :=
  exists c, handlers b !! g = Some c /\ c !! inl cmd = None.

Lemma deliver_unseen d b l g cmd :
  (forall data, d <> RawFrame cmd data) ->
  unseen g cmd b -> unseen g cmd (deliver d b l).
Proof.
  intros Hd (c & Hc & Hk). destruct l as [s [g' cb]]. unfold deliver.
  destruct (decide (s = slot_of d)); [| by exists c].
  destruct (handlers b !! g') as [c'|] eqn:Hc'; [| by exists c].
  unfold unseen. cbn [handlers]. destruct (decide (g' = g)) as [-> | Hne].
  - exists (cache_of (invoke cb d c')). split.
    + apply list_lookup_insert_eq. by apply lookup_lt_Some in Hc.
    + rewrite invoke_keeps_key by exact Hd. congruence.
  - exists c. split; [| exact Hk]. by rewrite list_lookup_insert_ne.
Qed.

Lemma dispatch_unseen d b g cmd :
  (forall data, d <> RawFrame cmd data) ->
  unseen g cmd b -> unseen g cmd (dispatch b d).
Proof.
  intros Hd. unfold dispatch. generalize (listeners b) as ls. intros ls. revert b.
  induction ls as [|l ls IH]; intros b Hu; simpl; [exact Hu |].
  apply IH. by apply deliver_unseen.
Qed.

Lemma command_handlers_cache t f value c :
  command_handlers t = Some f -> cache_of (f value c) = c.
Proof.
  unfold command_handlers.
  destruct (String.eqb t TOPIC_SET_FAN_SPEED); [intros [= <-]; apply handle_set_speed_cache |].
  destruct (String.eqb t TOPIC_SET_FAN_STATE); [| discriminate].
  intros [= <-]. apply handle_set_fan_state_cache.
Qed.

Lemma command_unseen g t value b cmd :
  is_Some (command_handlers t) -> unseen g cmd b ->
  unseen g cmd (command g t value b) /\ crashed (command g t value b) = crashed b.
Proof.
  intros [f Hf] (c & Hc & Hk). unfold command. rewrite Hf, Hc. cbn [crashed].
  split; [| reflexivity]. unfold unseen. cbn [handlers]. exists c. split; [| exact Hk].
  rewrite (command_handlers_cache t f value c Hf).
  apply list_lookup_insert_eq. by apply lookup_lt_Some in Hc.
Qed.

Lemma dispatch_crashed b d : crashed (dispatch b d) = crashed b.
Proof.
  unfold dispatch. generalize (listeners b) as ls. intros ls. revert b.
  induction ls as [|[s [g cb]] ls IH]; intros b; simpl; [reflexivity |].
  rewrite IH. unfold deliver.
  destruct (decide (s = slot_of d)); [| reflexivity].
  destruct (handlers b !! g); reflexivity.
Qed.

Lemma serve_app g l1 l2 : forall b, serve g (l1 ++ l2) b = serve g l2 (serve g l1 b).
Proof.
  induction l1 as [|i l1 IH]; intros b; simpl; [reflexivity |].
  destruct (crashed b) eqn:Hc; [| apply IH].
  destruct l2; simpl; [reflexivity | by rewrite Hc].
Qed.

(** Inputs that are neither a frame of [cmd] nor a message on an unknown
    topic keep the session up and the entry of [cmd] absent. *)
Lemma serve_unseen g cmd pre : forall b,
  (forall data, FromDevice (RawFrame cmd data) ∉ pre) ->
  (forall t value, FromBroker t value ∈ pre -> is_Some (command_handlers t)) ->
  crashed b = false -> unseen g cmd b ->
  crashed (serve g pre b) = false /\ unseen g cmd (serve g pre b).
Proof.
  induction pre as [|i pre IH]; intros b Hf Ht Hc Hu; simpl; [done |].
  rewrite Hc.
  assert (forall data, FromDevice (RawFrame cmd data) ∉ pre) as Hf'
    by (intros data H; apply (Hf data); by right).
  assert (forall t value, FromBroker t value ∈ pre -> is_Some (command_handlers t)) as Ht'
    by (intros t value H; apply (Ht t value); by right).
  destruct i as [d | t value].
  - apply IH; try done.
    + by rewrite dispatch_crashed.
    + apply dispatch_unseen; [| exact Hu]. intros data ->. apply (Hf data). by left.
  - destruct (command_unseen g t value b cmd) as (Hu' & Hc'); [| exact Hu |].
    { apply (Ht t value). by left. }
    apply IH; try done. congruence.
Qed.

Lemma deliver_other d b s g cb : s <> slot_of d -> deliver d b (s, (g, cb)) = b.
Proof. intros H. unfold deliver. by rewrite decide_False. Qed.

Lemma deliver_hit d b s g cb c :
  s = slot_of d -> handlers b !! g = Some c ->
  deliver d b (s, (g, cb)) =
    Bridge (<[g:=cache_of (invoke cb d c)]> (handlers b)) (listeners b)
           (trace b ++ [ADelivered g cb d (invoke cb d c)]) (crashed b).
Proof. intros Hs Hc. unfold deliver. rewrite decide_True by exact Hs. by rewrite Hc. Qed.

(** A frame delivered while the listeners of turn [g] are the registered
    ones reaches [h.event] of that handler. *)
Lemma dispatch_frame g cmd data b c :
  listeners b = ca_listeners g -> handlers b !! g = Some c ->
  trace (dispatch b (RawFrame cmd data)) =
    trace b ++ [ADelivered g h_event (RawFrame cmd data) (event cmd data c)].
Proof.
  intros Hl Hc. unfold dispatch. rewrite Hl. unfold ca_listeners. cbn [foldl].
  rewrite (deliver_hit (RawFrame cmd data) b Raw g h_event c eq_refl Hc).
  rewrite !deliver_other by discriminate. reflexivity.
Qed.

Lemma on_mqtt_error_trace strict g b :
  exists ext, trace (on_mqtt_error strict g b) = trace b ++ ext.
Proof.
  unfold on_mqtt_error. destruct (crashed b).
  - exists []. by rewrite app_nil_r.
  - destruct (remove_all strict (ca_listeners g) (listeners b)); eexists; reflexivity.
Qed.

Lemma event_unseen_logs cmd data c :
  c !! inl cmd = None -> log_msg cmd data ∈ effects_of (event cmd data c).
Proof.
  intros Hk. rewrite event_run, bool_decide_eq_false_2 by (rewrite Hk; discriminate).
  cbv zeta. cbn [effects_of]. by left.
Qed.

(** C4.  Whatever the transport does and whichever events and messages
    arrive: whenever listeners are attached, they are those of a handler
    whose cache was made, empty, exactly once in the whole run, earlier in
    the same turn, with only MQTT calls in between, and is still empty at
    the attach.  So in a session that follows any run of the loop, the first
    frame of a command id is delivered to [event] on a cache without an
    entry for it, and is logged, whatever the handlers of earlier sessions
    had cached.  (The cache is emptied by building a new handler in each
    turn; [invalidate_cache] has no caller.) *)
Theorem C4_cache_fresh_at_attach (strict : bool) (script : list turn) :
  let b := mqtt_connection strict script init in
  (forall g c, AAttach g c ∈ trace b ->
     c = ∅ /\ created g (trace b) = 1%nat /\
     exists l1 l2 l3,
       trace b = l1 ++ ANewHandler g :: l2 ++ AAttach g c :: l3 /\ Forall is_mqtt l2) /\
  (crashed b = false ->
   forall early pre cmd data post,
     (forall data', FromDevice (RawFrame cmd data') ∉ pre) ->
     (forall t value, FromBroker t value ∈ pre -> is_Some (command_handlers t)) ->
     let g := length (handlers b) in
     let b' := run_turn strict
                 (Turn early (Session (pre ++ FromDevice (RawFrame cmd data) :: post))) b in
     exists c, c !! inl cmd = None /\
       ADelivered g h_event (RawFrame cmd data) (event cmd data c) ∈ trace b' /\
       log_msg cmd data ∈ effects_of (event cmd data c)).
Proof.
  cbv zeta.
  destruct (loop_inv_script strict script init loop_inv_init) as (Il & _ & Ia).
  split; [exact Ia |].
  set (b := mqtt_connection strict script init) in *.
  intros Hc early pre cmd data post Hf Ht.
  pose proof (Il Hc) as Hl.
  set (g := length (handlers b)).
  unfold run_turn. rewrite Hc. cbv zeta. cbn [before what].
  assert (listeners (new_handler b) = []) as Hl0 by exact Hl.
  rewrite (foldl_dispatch_unheard early (new_handler b) Hl0).
  unfold establish. cbv zeta. fold g.
  set (b2 := log_action subscribed
               (attach g (log_action (announced 4 ++ [AMqtt Online]) (new_handler b)))).
  assert (crashed b2 = false) as Hc2 by reflexivity.
  assert (listeners b2 = ca_listeners g) as Hl2 by (cbn; rewrite Hl; reflexivity).
  assert (unseen g cmd b2) as Hu2.
  { exists ∅. split; [| apply lookup_empty].
    cbn [b2 handlers log_action attach new_handler]. subst g.
    apply list_lookup_middle. reflexivity. }
  rewrite serve_app.
  destruct (serve_unseen g cmd pre b2 Hf Ht Hc2 Hu2) as (Hc3 & c & Hh3 & Hk).
  destruct (serve_extends g pre b2) as (_ & Hl3 & _).
  rewrite Hl2 in Hl3.
  set (b3 := serve g pre b2) in *.
  cbn [serve]. rewrite Hc3.
  pose proof (dispatch_frame g cmd data b3 c Hl3 Hh3) as Hd.
  destruct (serve_extends g post (dispatch b3 (RawFrame cmd data))) as (_ & _ & e1 & He1 & _).
  destruct (on_mqtt_error_trace strict g (serve g post (dispatch b3 (RawFrame cmd data))))
    as (e2 & He2).
  exists c. split_and!.
  - exact Hk.
  - rewrite He2, He1, Hd. rewrite !elem_of_app. left. left. right.
    apply list_elem_of_singleton. reflexivity.
  - by apply event_unseen_logs.
Qed.

(** A run in which the transport is lost twice: frame 7 is cached in the
    first session, the handler of that session still holds it, and the same
    frame is logged again in the second session. *)
Lemma C4_cache_fresh_at_attach_witness :
  let b := mqtt_connection false [Turn [] (Session [FromDevice (RawFrame 7 [1])])] init in
  crashed b = false /\
  handlers b !! 0%nat = Some (<[inl 7:=VBytes [1]]> ∅) /\
  exists c, c !! inl 7 = None /\
    ADelivered 1 h_event (RawFrame 7 [1]) (event 7 [1] c)
      ∈ trace (run_turn false (Turn [] (Session [FromDevice (RawFrame 7 [1])])) b) /\
    log_msg 7 [1] ∈ effects_of (event 7 [1] c).
Proof.
  cbv zeta. split; [reflexivity |]. split; [reflexivity |].
  destruct (C4_cache_fresh_at_attach false [Turn [] (Session [FromDevice (RawFrame 7 [1])])])
    as (_ & H).
  apply (H eq_refl [] [] 7 [1] []).
  - intros data' Hin. by apply elem_of_nil in Hin.
  - intros t value Hin. by apply elem_of_nil in Hin.
Defined.

(** * Further properties of the handler *)

(** The calls a handler can receive: from the device library through its
    listeners, from the inbound-message loop, and [invalidate_cache]. *)
Inductive handler_call :=
  | call_invalidate_cache
  | call_event (cmd : Z) (data : list Z)
  | call_temp_outside_event (value : pyval)
  | call_airflow_exhaust (value : pyval)
  | call_airflow_supply (value : pyval)
  | call_fan_speed_mode (value : Z)
  | call_cooked_event (attribute : attribute_id) (value : pyval)
  | call_handle_set_speed (value : string)
  | call_handle_set_fan_state (value : string).

Definition perform (k : handler_call) : M unit :=
  match k with
  | call_invalidate_cache => invalidate_cache
  | call_event cmd data => event cmd data
  | call_temp_outside_event value => temp_outside_event value
  | call_airflow_exhaust value => airflow_exhaust value
  | call_airflow_supply value => airflow_supply value
  | call_fan_speed_mode value => fan_speed_mode value
  | call_cooked_event attribute value => cooked_event attribute value
  | call_handle_set_speed value => handle_set_speed value
  | call_handle_set_fan_state value => handle_set_fan_state value
  end.

(** The cache after a sequence of calls; a call that raises leaves the
    cache as it was at the raise, and the next call is made all the same. *)
Definition perform_all (ks : list handler_call) (c : cache_t) : cache_t :=
  foldl (fun c k => cache_of (perform k c)) c ks.




Lemma event_other_keys cmd data c (k : key) :
  k <> inl cmd -> cache_of (event cmd data c) !! k = c !! k.
Proof.
  intros Hk. destruct (event_cache cmd data c) as [-> | ->]; [reflexivity |].
  by rewrite lookup_insert_ne.
Qed.

Lemma fan_speed_mode_other_keys value c (k : key) :
  k <> K_speed -> k <> K_state -> cache_of (fan_speed_mode value c) !! k = c !! k.
Proof.
  intros Hs Ht.
  destruct (py_getitem SPEED_VALUES value) as [speed|] eqn:E.
  - destruct (speed_cases speed (getitem_in_SPEED_VALUES _ _ E)) as [-> | [-> | Hrun]].
    + rewrite (fan_speed_mode_auto c value E). simpl. by rewrite lookup_insert_ne.
    + rewrite (fan_speed_mode_off c value E). simpl. by rewrite !lookup_insert_ne.
    + rewrite (fan_speed_mode_running c value speed E Hrun).
      destruct (falsy_or_off (c !! K_speed)); simpl; by rewrite !lookup_insert_ne.
  - by rewrite (fan_speed_mode_fault c value E).
Qed.




(** X2.  After [event] has been called with a frame, whether it returned
    or raised, the cache holds that frame under its command id, every other
    entry is as before, and calling [event] with the same frame again does
    nothing at all. *)
Theorem X2_event_caches_frame (cmd : Z) (data : list Z) (c : cache_t) :
  let c' := cache_of (event cmd data c) in
  c' !! inl cmd = Some (VBytes data) /\
  (forall k : key, k <> inl cmd -> c' !! k = c !! k) /\
  event cmd data c' = Run (Ok tt) c' [].
Proof.
  cbv zeta.
  assert (cache_of (event cmd data c) !! inl cmd = Some (VBytes data)) as Hk.
  { rewrite event_run. case_bool_decide as Hd; [exact Hd |].
    cbv zeta. cbn [cache_of].
    destruct (Z.eqb cmd 0x3c);
      [rewrite decode_display_data_cache |]; apply lookup_insert_eq. }
  split_and!.
  - exact Hk.
  - intros k Hne. by apply event_other_keys.
  - rewrite (event_run cmd data (cache_of (event cmd data c))).
    by rewrite bool_decide_eq_true_2.
Qed.

(** X3.  [event] never publishes and never calls the device, and the only
    exception it can raise is the AssertionError of the decoder, which it
    raises only for a display frame (command 0x3c). *)
Theorem X3_event_effects (cmd : Z) (data : list Z) (c : cache_t) :
  let r := event cmd data c in
  publications (effects_of r) = [] /\
  control_calls (effects_of r) = [] /\
  (outcome r = Ok tt \/ (outcome r = Raise AssertionError /\ cmd = 0x3c)).
Proof.
  cbv zeta. rewrite event_run. case_bool_decide; [by split_and!; [| | left] |].
  cbv zeta. destruct (Z.eqb_spec cmd 0x3c) as [-> | Hne].
  - rewrite decode_display_data_run.
    destruct (Nat.eqb (length cc_segments) (length data)); [| by split_and!; [| | left]].
    destruct (decode_cells 0 data) as [segs|e] eqn:E; [by split_and!; [| | left] |].
    apply decode_cells_raise in E. destruct E as (-> & _).
    split_and!; [reflexivity | reflexivity | by right].
  - by split_and!; [| | left].
Qed.

(** X4.  [fan_speed_mode] writes no cache entry but "speed" and "state",
    never calls the device, and publishes on the fan-state and fan-speed
    topics only, at most once on each. *)
Theorem X4_fan_speed_mode_frame (value : Z) (c : cache_t) :
  let r := fan_speed_mode value c in
  (forall k : key, k <> K_speed -> k <> K_state -> cache_of r !! k = c !! k) /\
  control_calls (effects_of r) = [] /\
  (forall p, p ∈ publications (effects_of r) ->
     topic p = TOPIC_FAN_STATE \/ topic p = TOPIC_FAN_SPEED) /\
  (length (on_topic TOPIC_FAN_STATE (effects_of r)) <= 1)%nat /\
  (length (on_topic TOPIC_FAN_SPEED (effects_of r)) <= 1)%nat.
Proof.
  cbv zeta. split; [intros k; apply fan_speed_mode_other_keys |].
  destruct (py_getitem SPEED_VALUES value) as [speed|] eqn:E.
  - destruct (speed_cases speed (getitem_in_SPEED_VALUES _ _ E)) as [-> | [-> | Hrun]].
    + rewrite (fan_speed_mode_auto c value E). cbn [effects_of].
      split_and!; [reflexivity | | vm_compute; lia | vm_compute; lia].
      intros p Hp. by apply elem_of_nil in Hp.
    + rewrite (fan_speed_mode_off c value E). cbn [effects_of].
      split_and!; [reflexivity | | vm_compute; lia | vm_compute; lia].
      intros p Hp. apply list_elem_of_singleton in Hp. subst p. by left.
    + rewrite (fan_speed_mode_running c value speed E Hrun).
      destruct (falsy_or_off (c !! K_speed)); cbn [effects_of];
        (split_and!; [reflexivity | | vm_compute; lia | vm_compute; lia]);
        intros p Hp; cbn in Hp; rewrite ?elem_of_cons, elem_of_nil in Hp;
        destruct Hp as [-> | Hp]; try (by left); try (by right);
        destruct Hp as [-> | []]; by right.
  - rewrite (fan_speed_mode_fault c value E). cbn [effects_of].
    split_and!; [reflexivity | | vm_compute; lia | vm_compute; lia].
    intros p Hp. by apply elem_of_nil in Hp.
Qed.

(** X5.  After [invalidate_cache], whatever the cache held: a raw frame is
    cached and logged, and a fan-speed event for low, medium or high
    publishes state=on and then its speed. *)
Theorem X5_after_invalidate_cache (c : cache_t) (cmd : Z) (data : list Z)
    (value : Z) (speed : string) :
  py_getitem SPEED_VALUES value = Some speed -> running speed ->
  log_msg cmd data ∈ effects_of ((invalidate_cache ;; event cmd data) c) /\
  publications (effects_of ((invalidate_cache ;; fan_speed_mode value) c))
    = [state_pub "on"; speed_pub speed].
Proof.
  intros Hget Hrun. unfold bind, invalidate_cache. split.
  - destruct (event cmd data ∅) as [o c2 es2] eqn:E. cbn [app].
    change es2 with (effects_of (Run o c2 es2)). rewrite <- E.
    apply event_unseen_logs, lookup_empty.
  - rewrite (fan_speed_mode_running ∅ value speed Hget Hrun). reflexivity.
Qed.

Lemma X5_after_invalidate_cache_witness :
  let c := <[inl 7:=VBytes [1]]> (<[K_speed:=VStr "high"]> ∅) in
  log_msg 7 [1] ∈ effects_of ((invalidate_cache ;; event 7 [1]) c) /\
  publications (effects_of ((invalidate_cache ;; fan_speed_mode 3) c))
    = [state_pub "on"; speed_pub "medium"].
Proof.
  apply (X5_after_invalidate_cache _ 7 [1] 3 "medium"); [reflexivity | exact running_medium].
Defined.

Lemma handle_set_speed_effects value c :
  effects_of (handle_set_speed value c) = [log_invalid_speed value] /\ value ∉ SPEED_VALUES \/
  effects_of (handle_set_speed value c) = [] /\ value = "auto" \/
  exists n, effects_of (handle_set_speed value c) = [SetSpeed n] /\
            (value, n) ∈ [("off", 1); ("low", 2); ("medium", 3); ("high", 4)].
Proof.
  unfold handle_set_speed.
  destruct (py_in value SPEED_VALUES) eqn:E; simpl.
  - apply py_in_spec in E. unfold SPEED_VALUES in E.
    rewrite !elem_of_cons, elem_of_nil in E.
    destruct E as [-> | [-> | [-> | [-> | [-> | []]]]]]; simpl.
    + right. left. done.
    + right. right. exists 1. split; [reflexivity |]. rewrite !elem_of_cons. auto.
    + right. right. exists 2. split; [reflexivity |]. rewrite !elem_of_cons. auto.
    + right. right. exists 3. split; [reflexivity |]. rewrite !elem_of_cons. auto.
    + right. right. exists 4. split; [reflexivity |]. rewrite !elem_of_cons. auto.
  - left. split; [reflexivity |]. by apply py_in_false.
Qed.

Lemma handle_set_fan_state_effects value c :
  effects_of (handle_set_fan_state value c) = [log_invalid_state value] \/
  effects_of (handle_set_fan_state value c) = [] \/
  effects_of (handle_set_fan_state value c) = [SetSpeed 1] \/
  effects_of (handle_set_fan_state value c) = [SetSpeed 2].
Proof.
  unfold handle_set_fan_state.
  destruct (negb (py_in value STATE_VALUES)); [by left |].
  destruct (String.eqb value "off"); [right; right; by left |].
  unfold bind, cache_get. destruct (falsy_or_off (c !! K_speed)); simpl; auto.
Qed.

Lemma event_no_calls cmd data c : control_calls (effects_of (event cmd data c)) = [].
Proof.
  rewrite event_run. case_bool_decide; [reflexivity |]. cbv zeta.
  destruct (Z.eqb cmd 0x3c); [| reflexivity].
  rewrite decode_display_data_run.
  destruct (Nat.eqb (length cc_segments) (length data)); [| reflexivity].
  destruct (decode_cells 0 data); reflexivity.
Qed.

Lemma fan_speed_mode_no_calls value c :
  control_calls (effects_of (fan_speed_mode value c)) = [].
Proof.
  destruct (py_getitem SPEED_VALUES value) as [speed|] eqn:E.
  - destruct (speed_cases speed (getitem_in_SPEED_VALUES _ _ E)) as [-> | [-> | Hrun]].
    + by rewrite (fan_speed_mode_auto c value E).
    + by rewrite (fan_speed_mode_off c value E).
    + rewrite (fan_speed_mode_running c value speed E Hrun).
      by destruct (falsy_or_off (c !! K_speed)).
  - by rewrite (fan_speed_mode_fault c value E).
Qed.

(** X6.  Whatever call a handler receives, every speed index it passes to
    the device's [set_speed] lies between 1 and 4, and only the two command
    handlers call the device at all: no listener does. *)
Theorem X6_control_calls_in_range (k : handler_call) (c : cache_t) (n : Z) :
  n ∈ control_calls (effects_of (perform k c)) ->
  1 <= n <= 4 /\
  exists value, k = call_handle_set_speed value \/ k = call_handle_set_fan_state value.
Proof.
  intros Hn. destruct k; simpl perform in Hn.
  - by apply elem_of_nil in Hn.
  - rewrite event_no_calls in Hn. by apply elem_of_nil in Hn.
  - by apply elem_of_nil in Hn.
  - by apply elem_of_nil in Hn.
  - by apply elem_of_nil in Hn.
  - rewrite fan_speed_mode_no_calls in Hn. by apply elem_of_nil in Hn.
  - by apply elem_of_nil in Hn.
  - split; [| eauto].
    destruct (handle_set_speed_effects value c) as [[E _] | [[E _] | (m & E & Hm)]];
      rewrite E in Hn; cbn in Hn; try (by apply elem_of_nil in Hn).
    apply list_elem_of_singleton in Hn. subst m.
    rewrite !elem_of_cons, elem_of_nil in Hm.
    destruct Hm as [Hm | [Hm | [Hm | [Hm | []]]]]; simplify_eq; lia.
  - split; [| eauto].
    destruct (handle_set_fan_state_effects value c) as [E | [E | [E | E]]];
      rewrite E in Hn; cbn in Hn; try (by apply elem_of_nil in Hn);
      apply list_elem_of_singleton in Hn; lia.
Qed.

Lemma X6_control_calls_in_range_witness :
  3 ∈ control_calls (effects_of (perform (call_handle_set_speed "medium") ∅)) /\
  1 <= 3 <= 4.
Proof.
  assert (3 ∈ control_calls (effects_of (perform (call_handle_set_speed "medium") ∅))) as H
    by (apply list_elem_of_singleton; reflexivity).
  split; [exact H |].
  apply (X6_control_calls_in_range (call_handle_set_speed "medium") ∅ 3 H).
Defined.

(** X7.  The speed command and the speed report agree on the indices: when
    [handle_set_speed] passes index [n] to the device for the payload
    [value], [n] is the position of [value] in the enumeration, and a
    fan-speed event with raw value [n] resolves to [value] again and caches
    it as the speed. *)
Theorem X7_set_speed_round_trip (value : string) (c c' : cache_t) (n : Z) :
  control_calls (effects_of (handle_set_speed value c)) = [n] ->
  py_index SPEED_VALUES value = Some n /\
  py_getitem SPEED_VALUES n = Some value /\
  outcome (fan_speed_mode n c') = Ok tt /\
  cache_of (fan_speed_mode n c') !! K_speed = Some (VStr value).
Proof.
  intros H.
  destruct (handle_set_speed_effects value c) as [[E _] | [[E _] | (m & E & Hm)]];
    rewrite E in H; try discriminate H.
  injection H as ->.
  rewrite !elem_of_cons, elem_of_nil in Hm.
  destruct Hm as [Hm | [Hm | [Hm | [Hm | []]]]]; simplify_eq.
  - rewrite (fan_speed_mode_off c' 1 eq_refl). cbn [outcome cache_of].
    split_and!; try reflexivity. apply lookup_insert_eq.
  - rewrite (fan_speed_mode_running c' 2 "low" eq_refl running_low).
    destruct (falsy_or_off (c' !! K_speed)); cbn [outcome cache_of];
      (split_and!; try reflexivity; apply lookup_insert_eq).
  - rewrite (fan_speed_mode_running c' 3 "medium" eq_refl running_medium).
    destruct (falsy_or_off (c' !! K_speed)); cbn [outcome cache_of];
      (split_and!; try reflexivity; apply lookup_insert_eq).
  - rewrite (fan_speed_mode_running c' 4 "high" eq_refl running_high).
    destruct (falsy_or_off (c' !! K_speed)); cbn [outcome cache_of];
      (split_and!; try reflexivity; apply lookup_insert_eq).
Qed.

Lemma X7_set_speed_round_trip_witness :
  control_calls (effects_of (handle_set_speed "high" ∅)) = [4] /\
  py_getitem SPEED_VALUES 4 = Some "high" /\
  cache_of (fan_speed_mode 4 ∅) !! K_speed = Some (VStr "high").
Proof.
  split; [reflexivity |].
  pose proof (X7_set_speed_round_trip "high" ∅ ∅ 4 eq_refl) as H. tauto.
Defined.

(** * Further properties of the display decoder *)

(** The low [n] bits of [val] decide every mask test within them. *)
Lemma land_low_bits (val k n : Z) :
  0 <= n -> Z.land (Z.ones n) k = k ->
  Z.land val k = Z.land (val mod 2 ^ n) k.
Proof.
  intros Hn Hk. rewrite <- (Z.land_ones val n Hn), <- Z.land_assoc, Hk. reflexivity.
Qed.

Lemma bad_cell_digit pos val digit :
  digit_at pos val = Some digit -> bad_cell pos val <-> ssd_chr digit = None.
Proof.
  intros H. unfold bad_cell. rewrite H. split.
  - intros (d & [= <-] & Hd). exact Hd.
  - intros Hd. eauto.
Qed.

(** The hour cell fails unless its three low bits are 0, 3 or 6. *)
Lemma bad_cell_hour val :
  bad_cell 1 val <->
  Z.land val 7 <> 0 /\ Z.land val 7 <> 3 /\ Z.land val 7 <> 6.
Proof.
  rewrite (bad_cell_digit 1 val _ eq_refl). unfold bit_set.
  rewrite (land_low_bits val 6 3), (land_low_bits val 1 3), (land_low_bits val 7 3)
    by (lia || reflexivity).
  pose proof (Z.mod_pos_bound val (2 ^ 3) ltac:(lia)) as Hm.
  set (m := val mod 2 ^ 3) in *. change (2 ^ 3) with 8 in Hm.
  assert (m = 0 \/ m = 1 \/ m = 2 \/ m = 3 \/ m = 4 \/ m = 5 \/ m = 6 \/ m = 7) as Hc by lia.
  clearbody m.
  destruct Hc as [-> | [-> | [-> | [-> | [-> | [-> | [-> | ->]]]]]]]; vm_compute;
    split; first [discriminate | intros (H0 & H3 & H6); congruence
                 | intros _; split_and!; discriminate ].
Qed.

(** The last cell fails unless its bits 2, 3 and 4 are all clear, or bit 2
    is set together with bit 3, bit 4 or both. *)
Lemma bad_cell_last val :
  bad_cell 9 val <->
  Z.land val 0x1c <> 0 /\ Z.land val 0x1c <> 0x0c /\
  Z.land val 0x1c <> 0x14 /\ Z.land val 0x1c <> 0x1c.
Proof.
  rewrite (bad_cell_digit 9 val _ eq_refl). unfold bit_set.
  rewrite (land_low_bits val 4 5), (land_low_bits val 8 5), (land_low_bits val 0x10 5),
    (land_low_bits val 0x1c 5) by (lia || reflexivity).
  pose proof (Z.mod_pos_bound val (2 ^ 5) ltac:(lia)) as Hm.
  set (m := val mod 2 ^ 5) in *. change (2 ^ 5) with 32 in Hm.
  assert (exists i : nat, (i < 32)%nat /\ m = Z.of_nat i) as (i & Hi & ->)
    by (exists (Z.to_nat m); lia).
  clear Hm.
  do 32 (destruct i as [|i]; [vm_compute; split;
           first [discriminate | intros (H0 & H1 & H2 & H3); congruence
                 | intros _; split_and!; discriminate ] |]).
  lia.
Qed.

Lemma bad_cell_middle pos val :
  (2 <= pos <= 8)%nat -> bad_cell pos val <-> ssd_chr (Z.land val 0x7f) = None.
Proof.
  intros Hp. apply bad_cell_digit. unfold digit_at.
  destruct (Nat.eqb_spec pos 1); [lia |].
  destruct (Nat.leb_spec 2 pos); [| lia]. destruct (Nat.leb_spec pos 8); [| lia].
  reflexivity.
Qed.

Lemma bad_cell_days val : ~ bad_cell 0 val.
Proof. intros (d & H & _). discriminate H. Qed.

Lemma decode_display_data_ok data c :
  length data = 10%nat ->
  outcome (decode_display_data data c) = Ok tt <->
  ~ exists i val, data !! i = Some val /\ bad_cell i val.
Proof.
  intros Hlen. rewrite decode_display_data_run, Hlen. simpl Nat.eqb. cbv iota.
  destruct (decode_cells 0 data) as [segs|e] eqn:E; simpl.
  - split; [| done]. intros _ Hbad.
    assert (decode_cells 0 data = Raise AssertionError) as E'
      by (apply decode_cells_raise; auto).
    congruence.
  - split; [discriminate |]. intros Hgood. exfalso. apply Hgood.
    apply decode_cells_raise in E. tauto.
Qed.

(** X8.  Which display frames decode.  A frame of ten cells is decoded
    without error exactly when the three low bits of cell 1 are 0, 3 or 6;
    the seven low bits of each of the cells 2 to 8 are one of the patterns
    of the table; and bits 2 to 4 of cell 9 are all clear, or bit 2 is set
    with bit 3 or bit 4 or both.  Cell 0 and the other bits never make the
    decoder fail. *)
Theorem X8_frames_that_decode (data : list Z) (c : cache_t) :
  length data = 10%nat ->
  outcome (decode_display_data data c) = Ok tt <->
  (forall val, data !! 1%nat = Some val ->
     Z.land val 7 = 0 \/ Z.land val 7 = 3 \/ Z.land val 7 = 6) /\
  (forall pos val, (2 <= pos <= 8)%nat -> data !! pos = Some val ->
     is_Some (ssd_chr (Z.land val 0x7f))) /\
  (forall val, data !! 9%nat = Some val ->
     Z.land val 0x1c = 0 \/ Z.land val 0x1c = 0x0c \/
     Z.land val 0x1c = 0x14 \/ Z.land val 0x1c = 0x1c).
Proof.
  intros Hlen. rewrite (decode_display_data_ok data c Hlen). split.
  - intros Hgood. split_and!.
    + intros val Hv. assert (~ bad_cell 1 val) as Hb by (intros Hb; apply Hgood; eauto).
      rewrite bad_cell_hour in Hb. lia.
    + intros pos val Hp Hv.
      destruct (ssd_chr (Z.land val 0x7f)) eqn:E; [eauto |].
      exfalso. apply Hgood. exists pos, val. split; [exact Hv |].
      by apply bad_cell_middle.
    + intros val Hv. assert (~ bad_cell 9 val) as Hb by (intros Hb; apply Hgood; eauto).
      rewrite bad_cell_last in Hb. lia.
  - intros (H1 & Hmid & H9) (i & val & Hv & Hb).
    assert (i < 10)%nat as Hi by (apply lookup_lt_Some in Hv; lia).
    destruct (decide (i = 0%nat)) as [-> | H0]; [by apply bad_cell_days in Hb |].
    destruct (decide (i = 1%nat)) as [-> | Hn1].
    { apply bad_cell_hour in Hb. specialize (H1 val Hv). lia. }
    destruct (decide (i = 9%nat)) as [-> | Hn9].
    { apply bad_cell_last in Hb. specialize (H9 val Hv). lia. }
    assert (2 <= i <= 8)%nat as Hp by lia.
    apply (bad_cell_middle i val Hp) in Hb.
    destruct (Hmid i val Hp Hv) as [ch Hch]. congruence.
Qed.

Lemma X8_frames_that_decode_witness :
  outcome (decode_display_data [0x81; 0x0e; 0x3f; 0x6d; 0x5b; 0x77; 0x06; 0x5b; 0xbf; 0xef] ∅)
    = Ok tt.
Proof.
  apply (X8_frames_that_decode
           [0x81; 0x0e; 0x3f; 0x6d; 0x5b; 0x77; 0x06; 0x5b; 0xbf; 0xef] ∅ eq_refl).
  split_and!.
  - intros val [= <-]. vm_compute. auto.
  - intros pos val Hp Hv.
    do 2 (destruct pos as [|pos]; [lia |]).
    do 7 (destruct pos as [|pos]; [injection Hv as <-; vm_compute; eauto |]). lia.
  - intros val [= <-]. vm_compute. auto.
Defined.

Lemma hour_digit val digit :
  digit_at 1 val = Some digit ->
  ssd_chr digit = None \/ ssd_chr digit = Some " " \/
  ssd_chr digit = Some "1" \/ ssd_chr digit = Some "2".
Proof.
  intros [= <-]. unfold bit_set.
  rewrite (land_low_bits val 6 3), (land_low_bits val 1 3) by (lia || reflexivity).
  pose proof (Z.mod_pos_bound val (2 ^ 3) ltac:(lia)) as Hm.
  set (m := val mod 2 ^ 3) in *. change (2 ^ 3) with 8 in Hm.
  assert (m = 0 \/ m = 1 \/ m = 2 \/ m = 3 \/ m = 4 \/ m = 5 \/ m = 6 \/ m = 7) as Hc by lia.
  clearbody m.
  destruct Hc as [-> | [-> | [-> | [-> | [-> | [-> | [-> | ->]]]]]]]; vm_compute; auto.
Qed.

Lemma unit_digit val digit :
  digit_at 9 val = Some digit ->
  ssd_chr digit = None \/ ssd_chr digit = Some " " \/
  ssd_chr digit = Some "C" \/ ssd_chr digit = Some "E" \/ ssd_chr digit = Some "F".
Proof.
  intros [= <-]. unfold bit_set.
  destruct (Z.eqb (Z.land val 4) 0), (Z.eqb (Z.land val 8) 0), (Z.eqb (Z.land val 0x10) 0);
    vm_compute; auto 10.
Qed.

(** X9.  What the two special cells can show.  When cell 1 (the tens of
    the hour) decodes, its character is a blank, 1 or 2, followed by the
    labels of its bits 3 to 7; when cell 9 (the unit of the temperature)
    decodes, its character is a blank, C, E or F, followed by the labels of
    its bits 0, 1, 5, 6 and 7. *)
Theorem X9_special_cells (val : Z) (segs : list string) :
  (decode_cell 1 val = Ok segs ->
   exists ch, segs = ch :: lit 1 val [3; 4; 5; 6; 7]%nat /\
              (ch = " " \/ ch = "1" \/ ch = "2")) /\
  (decode_cell 9 val = Ok segs ->
   exists ch, segs = ch :: lit 9 val [0; 1; 5; 6; 7]%nat /\
              (ch = " " \/ ch = "C" \/ ch = "E" \/ ch = "F")).
Proof.
  split.
  - unfold decode_cell.
    destruct (digit_at 1 val) as [digit|] eqn:D; [| discriminate D].
    pose proof (hour_digit val digit D) as Hd.
    destruct (ssd_chr digit) as [ch|]; [| discriminate].
    cbn [Nat.eqb]. intros [= <-]. exists ch. split; [reflexivity |].
    destruct Hd as [Hd | [Hd | [Hd | Hd]]]; simplify_eq; auto.
  - unfold decode_cell.
    destruct (digit_at 9 val) as [digit|] eqn:D; [| discriminate D].
    pose proof (unit_digit val digit D) as Hd.
    destruct (ssd_chr digit) as [ch|]; [| discriminate].
    cbn [Nat.eqb]. change (range8 8) with (@nil nat).
    assert (lit 9 val [] = []) as -> by reflexivity. rewrite app_nil_r.
    intros [= <-]. exists ch. split.
    + reflexivity.
    + destruct Hd as [Hd | [Hd | [Hd | [Hd | Hd]]]]; simplify_eq; auto.
Qed.

Lemma X9_special_cells_witness :
  exists ch, ["1"; "AUTO"] = ch :: lit 1 0x0e [3; 4; 5; 6; 7]%nat /\
             (ch = " " \/ ch = "1" \/ ch = "2").
Proof. apply (X9_special_cells 0x0e ["1"; "AUTO"]). reflexivity. Defined.

(** * Further properties of the supervisor *)

Lemma mqtt_connection_crashed strict script b :
  crashed b = true -> mqtt_connection strict script b = b.
Proof.
  intros Hc. induction script as [|t script IH]; simpl; [reflexivity |].
  assert (run_turn strict t b = b) as -> by (unfold run_turn; by rewrite Hc).
  exact IH.
Qed.

Lemma serve_crashed g inputs b : crashed b = true -> serve g inputs b = b.
Proof. intros Hc. destruct inputs; simpl; [reflexivity | by rewrite Hc]. Qed.

(** Messages on known topics keep the session up. *)
Lemma serve_alive g pre : forall b,
  (forall t value, FromBroker t value ∈ pre -> is_Some (command_handlers t)) ->
  crashed b = false -> is_Some (handlers b !! g) ->
  crashed (serve g pre b) = false.
Proof.
  induction pre as [|i pre IH]; intros b Ht Hc Hg; simpl; [exact Hc |].
  rewrite Hc.
  assert (forall t value, FromBroker t value ∈ pre -> is_Some (command_handlers t)) as Ht'
    by (intros t value H; apply (Ht t value); by right).
  destruct i as [d | t value].
  - apply IH; [exact Ht' | by rewrite dispatch_crashed |].
    destruct (dispatch_extends b d) as (Hlen & _).
    apply lookup_lt_is_Some. rewrite Hlen. by apply lookup_lt_is_Some.
  - destruct (Ht t value ltac:(by left)) as [f Hf]. destruct Hg as [c Hc'].
    assert (command g t value b =
              Bridge (<[g:=cache_of (f value c)]> (handlers b)) (listeners b)
                     (trace b ++ [ACommand g t value (f value c)]) (crashed b)) as ->
      by (unfold command; by rewrite Hf, Hc').
    apply IH; [exact Ht' | exact Hc |]. cbn [handlers].
    apply lookup_lt_is_Some. rewrite length_insert. by apply lookup_lt_Some in Hc'.
Qed.

(** X10.  A device event that arrives while no session is up (after the
    listeners were detached, or before they are attached) reaches no
    handler: the turn runs as if the event had not arrived. *)
Theorem X10_events_between_sessions_are_lost
    (strict : bool) (script : list turn) (early : list device_input) (f : fate) :
  let b := mqtt_connection strict script init in
  crashed b = false ->
  run_turn strict (Turn early f) b = run_turn strict (Turn [] f) b.
Proof.
  cbv zeta. intros Hc.
  destruct (loop_inv_script strict script init loop_inv_init) as (Il & _).
  pose proof (Il Hc) as Hl.
  unfold run_turn. rewrite Hc. cbv zeta. cbn [before what].
  assert (listeners (new_handler (mqtt_connection strict script init)) = []) as Hl0
    by exact Hl.
  by rewrite (foldl_dispatch_unheard early _ Hl0).
Qed.

Lemma X10_events_between_sessions_are_lost_witness :
  crashed (mqtt_connection false [] init) = false /\
  run_turn false (Turn [Attribute FAN_SPEED_MODE (VInt 2)] ConnectRaises) init
    = run_turn false (Turn [] ConnectRaises) init.
Proof.
  split; [reflexivity |].
  apply (X10_events_between_sessions_are_lost false [] _ ConnectRaises). reflexivity.
Defined.

(** X11.  An inbound message on a topic that is not one of the two command
    topics raises KeyError in the message loop; it is not an MqttError, so
    it leaves [mqtt_connection]: the turn ends there, the listeners of the
    session stay registered, and no later turn runs. *)
Theorem X11_unknown_topic_ends_the_loop
    (strict : bool) (script rest : list turn) (early : list device_input)
    (pre post : list input) (t value : string) :
  let b := mqtt_connection strict script init in
  crashed b = false ->
  command_handlers t = None ->
  (forall t' value', FromBroker t' value' ∈ pre -> is_Some (command_handlers t')) ->
  let b' := run_turn strict (Turn early (Session (pre ++ FromBroker t value :: post))) b in
  crashed b' = true /\
  listeners b' = ca_listeners (length (handlers b)) /\
  (exists tr, trace b' = tr ++ [AFatal KeyError]) /\
  mqtt_connection strict rest b' = b'.
Proof.
  cbv zeta. intros Hc Hunknown Hknown.
  destruct (loop_inv_script strict script init loop_inv_init) as (Il & _).
  set (b := mqtt_connection strict script init) in *.
  pose proof (Il Hc) as Hl.
  set (g := length (handlers b)).
  unfold run_turn. rewrite Hc. cbv zeta. cbn [before what].
  assert (listeners (new_handler b) = []) as Hl0 by exact Hl.
  rewrite (foldl_dispatch_unheard early (new_handler b) Hl0).
  unfold establish. cbv zeta. fold g.
  set (b2 := log_action subscribed
               (attach g (log_action (announced 4 ++ [AMqtt Online]) (new_handler b)))).
  assert (listeners b2 = ca_listeners g) as Hl2 by (cbn; rewrite Hl; reflexivity).
  assert (is_Some (handlers b2 !! g)) as Hg2.
  { exists ∅. cbn [b2 handlers log_action attach new_handler]. subst g.
    apply list_lookup_middle. reflexivity. }
  rewrite serve_app.
  pose proof (serve_alive g pre b2 Hknown eq_refl Hg2) as Hc3.
  destruct (serve_extends g pre b2) as (_ & Hl3 & _). rewrite Hl2 in Hl3.
  set (b3 := serve g pre b2) in *.
  cbn [serve]. rewrite Hc3.
  assert (command g t value b3 =
            Bridge (handlers b3) (listeners b3) (trace b3 ++ [AFatal KeyError]) true) as ->
    by (unfold command; by rewrite Hunknown).
  rewrite serve_crashed by reflexivity.
  unfold on_mqtt_error. cbn [crashed].
  split_and!.
  - reflexivity.
  - exact Hl3.
  - eexists. reflexivity.
  - by apply mqtt_connection_crashed.
Qed.

Lemma X11_unknown_topic_ends_the_loop_witness :
  let b' := run_turn false (Turn [] (Session [FromBroker "comfoair/fan/mode/set" "on"])) init in
  crashed b' = true /\ listeners b' = ca_listeners 0 /\
  mqtt_connection false [Turn [] ConnectRaises] b' = b'.
Proof.
  cbv zeta.
  destruct (X11_unknown_topic_ends_the_loop false [] [Turn [] ConnectRaises] [] [] []
              "comfoair/fan/mode/set" "on" eq_refl eq_refl) as (H1 & H2 & _ & H4).
  - intros t' value' Hin. by apply elem_of_nil in Hin.
  - split_and!; [exact H1 | exact H2 | exact H4].
Defined.

(** X12.  When the transport fails before the listeners are attached (in
    the connect, in a discovery publish or in the availability publish) the
    [except] clause still asks the device to remove the nine listeners of a
    handler that has none registered.  If the device library raises on
    that, the exception leaves the loop; if it does not, the loop goes on.
    Either way the turn has made one new handler and no listener is
    registered. *)
Theorem X12_failure_before_attach
    (strict : bool) (script : list turn) (early : list device_input) (f : fate) :
  let b := mqtt_connection strict script init in
  crashed b = false ->
  (forall inputs, f <> Session inputs) ->
  let b' := run_turn strict (Turn early f) b in
  crashed b' = strict /\ listeners b' = [] /\ handlers b' = handlers b ++ [new_cache].
Proof.
  cbv zeta. intros Hc Hf.
  destruct (loop_inv_script strict script init loop_inv_init) as (Il & _).
  set (b := mqtt_connection strict script init) in *.
  pose proof (Il Hc) as Hl.
  unfold run_turn. rewrite Hc. cbv zeta. cbn [before what].
  assert (listeners (new_handler b) = []) as Hl0 by exact Hl.
  rewrite (foldl_dispatch_unheard early (new_handler b) Hl0).
  destruct f as [ | sent | | inputs ]; [| | | by destruct (Hf inputs)];
    unfold establish, on_mqtt_error; cbn [crashed log_action new_handler listeners];
    rewrite Hl; destruct strict; cbn; done.
Qed.

Lemma X12_failure_before_attach_witness :
  crashed (run_turn true (Turn [] ConnectRaises) init) = true /\
  crashed (run_turn false (Turn [] OnlineRaises) init) = false /\
  listeners (run_turn false (Turn [] OnlineRaises) init) = [].
Proof.
  split_and!.
  - apply (X12_failure_before_attach true [] [] ConnectRaises eq_refl). discriminate.
  - apply (X12_failure_before_attach false [] [] OnlineRaises eq_refl). discriminate.
  - apply (X12_failure_before_attach false [] [] OnlineRaises eq_refl). discriminate.
Defined.

(** No listener is registered, or the loop was left with the listeners of
    its last handler still registered. *)
Definition listening (b : bridge) : Prop :=
  listeners b = [] \/
  (crashed b = true /\
   exists g, length (handlers b) = S g /\ listeners b = ca_listeners g).

Lemma session_listeners g inputs b0 :
  listeners b0 = [] ->
  listeners (establish g (Session inputs) b0) = ca_listeners g.
Proof.
  intros Hl. unfold establish. cbv zeta.
  destruct (serve_extends g inputs
              (log_action subscribed
                 (attach g (log_action (announced 4 ++ [AMqtt Online]) b0))))
    as (_ & -> & _).
  cbn. by rewrite Hl.
Qed.

Lemma run_turn_listening strict t b :
  crashed b = false -> listeners b = [] -> listening (run_turn strict t b).
Proof.
  intros Hc Hl.
  destruct (run_turn_shape strict t b Hc Hl) as (Hlen & Hls & _).
  destruct (crashed (run_turn strict t b)) eqn:Hc'; [| left; by apply Hls].
  clear Hls. revert Hlen Hc'. unfold run_turn. rewrite Hc. cbv zeta.
  assert (listeners (new_handler b) = []) as Hl0 by exact Hl.
  rewrite (foldl_dispatch_unheard (before t) (new_handler b) Hl0).
  set (g := length (handlers b)).
  intros Hlen Hc'.
  destruct (what t) as [ | sent | | inputs ].
  - left. unfold establish.
    exact (proj1 (proj2 (on_mqtt_error_unattached strict g (new_handler b) eq_refl Hl0))).
  - left. unfold establish.
    exact (proj1 (proj2 (on_mqtt_error_unattached strict g
                           (log_action (announced sent) (new_handler b)) eq_refl Hl0))).
  - left. unfold establish.
    exact (proj1 (proj2 (on_mqtt_error_unattached strict g
                           (log_action (announced 4) (new_handler b)) eq_refl Hl0))).
  - right. split; [exact Hc' |]. exists g. split; [exact Hlen |].
    pose proof (session_listeners g inputs (new_handler b) Hl0) as Hs.
    revert Hc'. unfold on_mqtt_error.
    destruct (crashed (establish g (Session inputs) (new_handler b)));
      [intros _; exact Hs |].
    rewrite Hs, remove_all_self. discriminate.
Qed.

(** X13.  The listeners of two handlers are never registered together.
    After any number of turns either no listener is registered, or the loop
    has been left by an exception with the listeners of its last handler
    registered; and throughout the session of a further turn the registered
    listeners are the nine of that turn's handler, whatever has arrived. *)
Theorem X13_one_handler_listens
    (strict : bool) (script : list turn) :
  let b := mqtt_connection strict script init in
  listening b /\
  (crashed b = false ->
   forall early inputs,
     listeners (establish (length (handlers b)) (Session inputs)
                  (foldl dispatch (new_handler b) early))
     = ca_listeners (length (handlers b))).
Proof.
  cbv zeta. split.
  - assert (forall b, listening b -> (crashed b = false -> listeners b = []) ->
                      listening (mqtt_connection strict script b)) as H.
    { induction script as [|t script IH]; intros b Hb Hl; simpl; [exact Hb |].
      destruct (crashed b) eqn:Hc.
      - assert (run_turn strict t b = b) as -> by (unfold run_turn; by rewrite Hc).
        apply IH; [exact Hb | intros H'; congruence].
      - apply IH; [apply run_turn_listening; [exact Hc | exact (Hl eq_refl)] |].
        exact (proj1 (proj2 (run_turn_shape strict t b Hc (Hl eq_refl)))). }
    apply H; [by left | done].
  - intros Hc early inputs.
    destruct (loop_inv_script strict script init loop_inv_init) as (Il & _).
    assert (listeners (new_handler (mqtt_connection strict script init)) = []) as Hl0
      by exact (Il Hc).
    rewrite (foldl_dispatch_unheard early _ Hl0).
    by apply session_listeners.
Qed.

(** The listener registered for an input. *)
Definition callback_for (d : device_input) : callback :=
  match d with
  | RawFrame _ _ => h_event
  | Attribute AIRFLOW_EXHAUST _ => h_airflow_exhaust
  | Attribute AIRFLOW_SUPPLY _ => h_airflow_supply
  | Attribute FAN_SPEED_MODE _ => h_fan_speed_mode
  | Attribute TEMP_OUTSIDE _ => h_temp_outside_event
  | Attribute _ _ => h_cooked_event
  end.

Lemma foldl_deliver_miss d ls : forall b,
  Forall (fun l : listener => l.1 <> slot_of d) ls -> foldl (deliver d) b ls = b.
Proof.
  induction ls as [|[s [g cb]] ls IH]; intros b H; cbn [foldl]; [reflexivity |].
  apply Forall_cons in H. destruct H as [Hs Hls]. cbn [fst] in Hs.
  rewrite (deliver_other d b s g cb Hs). by apply IH.
Qed.

Lemma foldl_deliver_one d b l1 l2 g cb c :
  Forall (fun l : listener => l.1 <> slot_of d) l1 ->
  Forall (fun l : listener => l.1 <> slot_of d) l2 ->
  handlers b !! g = Some c ->
  foldl (deliver d) b (l1 ++ (slot_of d, (g, cb)) :: l2) =
    Bridge (<[g:=cache_of (invoke cb d c)]> (handlers b)) (listeners b)
           (trace b ++ [ADelivered g cb d (invoke cb d c)]) (crashed b).
Proof.
  intros H1 H2 Hc. rewrite foldl_app, (foldl_deliver_miss d l1 b H1). cbn [foldl].
  rewrite (deliver_hit d b (slot_of d) g cb c eq_refl Hc).
  by apply foldl_deliver_miss.
Qed.

(** X14.  While the nine listeners of a handler are the registered ones, a
    device event is handled exactly once, by that handler: a raw frame by
    [event], the two airflows, the fan speed and the outside temperature by
    their own listener, each of the four other temperatures by
    [cooked_event]. *)
Theorem X14_one_delivery_per_event
    (b : bridge) (g : nat) (c : cache_t) (d : device_input) :
  listeners b = ca_listeners g ->
  handlers b !! g = Some c ->
  dispatch b d =
    Bridge (<[g:=cache_of (invoke (callback_for d) d c)]> (handlers b)) (listeners b)
           (trace b ++ [ADelivered g (callback_for d) d (invoke (callback_for d) d c)])
           (crashed b).
Proof.
  intros Hl Hc. unfold dispatch. rewrite Hl at 1.
  pose (n := match d with
             | RawFrame _ _ => 0
             | Attribute AIRFLOW_EXHAUST _ => 1
             | Attribute AIRFLOW_SUPPLY _ => 2
             | Attribute FAN_SPEED_MODE _ => 3
             | Attribute TEMP_OUTSIDE _ => 4
             | Attribute TEMP_COMFORT _ => 5
             | Attribute TEMP_RETURN _ => 6
             | Attribute TEMP_EXHAUST _ => 7
             | Attribute TEMP_SUPPLY _ => 8
             end%nat).
  assert (ca_listeners g =
            take n (ca_listeners g) ++ (slot_of d, (g, callback_for d))
              :: drop (S n) (ca_listeners g)) as ->
    by (destruct d as [cmd data | a value]; [| destruct a]; reflexivity).
  apply foldl_deliver_one; [| | exact Hc];
    (destruct d as [cmd data | a value]; [| destruct a]);
    cbn; repeat constructor; discriminate.
Qed.

Lemma X14_one_delivery_per_event_witness :
  let b := Bridge [∅] (ca_listeners 0) [] false in
  trace (dispatch b (Attribute TEMP_RETURN (VInt 21)))
    = [ADelivered 0 h_cooked_event (Attribute TEMP_RETURN (VInt 21))
         (cooked_event TEMP_RETURN (VInt 21) ∅)].
Proof.
  cbv zeta.
  rewrite (X14_one_delivery_per_event (Bridge [∅] (ca_listeners 0) [] false) 0 ∅
             (Attribute TEMP_RETURN (VInt 21)) eq_refl eq_refl).
  reflexivity.
Defined.

(** * The discovery documents

    [send_ha_config] publishes four documents, each the [json.dumps] of a
    dict.  The dicts are modelled as lists of fields in the order they are
    written; the serialisation to text is not modelled. *)

#[local] Unset Elimination Schemes.
Inductive json :=
  | JStr (s : string)
  | JNum (n : Z)
  | JList (l : list json)
  | JDict (fields : list (string * json)).
#[local] Set Elimination Schemes.

Definition device : json :=
  JDict [("identifiers", JList [JStr "ComfoAir350"]);
         ("name", JStr "ComfoAir 350");
         ("manufacturer", JStr "Zehnder")].

Definition fan : list (string * json) :=
  [("name", JStr "ComfoAir Fan");
   ("device", device);
   ("unique_id", JStr "ComfoAir350_fan");
   ("state_topic", JStr TOPIC_SET_FAN_STATE);
   ("command_topic", JStr TOPIC_SET_FAN_STATE);
   ("speed_state_topic", JStr TOPIC_FAN_SPEED);
   ("speed_command_topic", JStr TOPIC_SET_FAN_SPEED);
   ("availability_topic", JStr TOPIC_AVAILABILITY);
   ("payload_available", JStr "Online");
   ("payload_not_available", JStr "Offline");
   ("qos", JNum 0);
   ("payload_on", JStr "on");
   ("payload_off", JStr "off");
   ("payload_low_speed", JStr "low");
   ("payload_medium_speed", JStr "medium");
   ("payload_high_speed", JStr "high");
   ("speeds", JList [JStr "off"; JStr "low"; JStr "medium"; JStr "high"]);
   ("platform", JStr "mqtt")].

Definition temp_outside_sensor : list (string * json) :=
  [("platform", JStr "mqtt");
   ("name", JStr "Outside Temperature");
   ("icon", JStr "mdi:thermometer");
   ("device", device);
   ("unique_id", JStr "ComfoAir350_outside_temp");
   ("state_topic", JStr TOPIC_TEMP_OUTSIDE);
   ("availability_topic", JStr TOPIC_AVAILABILITY);
   ("payload_available", JStr "Online");
   ("payload_not_available", JStr "Offline");
   ("unit_of_measurement", JStr "C")].

Definition airflow_supply_sensor : list (string * json) :=
  [("platform", JStr "mqtt");
   ("name", JStr "Supply Airflow");
   ("icon", JStr "mdi:fan");
   ("device", device);
   ("unique_id", JStr "ComfoAir350_airflow_supply");
   ("state_topic", JStr TOPIC_AIRFLOW_SUPPLY);
   ("availability_topic", JStr TOPIC_AVAILABILITY);
   ("payload_available", JStr "Online");
   ("payload_not_available", JStr "Offline");
   ("unit_of_measurement", JStr "%")].

Definition airflow_exhaust_sensor : list (string * json) :=
  [("platform", JStr "mqtt");
   ("name", JStr "Exhaust Airflow");
   ("icon", JStr "mdi:fan");
   ("device", device);
   ("unique_id", JStr "ComfoAir350_airflow_exhaust");
   ("state_topic", JStr TOPIC_AIRFLOW_EXHAUST);
   ("availability_topic", JStr TOPIC_AVAILABILITY);
   ("payload_available", JStr "Online");
   ("payload_not_available", JStr "Offline");
   ("unit_of_measurement", JStr "%")].

(** The four publications of [send_ha_config], in order: topic and document. *)
Definition send_ha_config : list (string * list (string * json)) :=
  [("homeassistant/fan/ComfoAir/config", fan);
   ("homeassistant/sensor/ComfoAir_temp/config", temp_outside_sensor);
   ("homeassistant/sensor/ComfoAir_airflow_supply/config", airflow_supply_sensor);
   ("homeassistant/sensor/ComfoAir_airflow_exhaust/config", airflow_exhaust_sensor)].



Lemma fan_speed_mode_publications value c p :
  p ∈ publications (effects_of (fan_speed_mode value c)) ->
  p = state_pub "off" \/ p = state_pub "on" \/
  p = speed_pub "low" \/ p = speed_pub "medium" \/ p = speed_pub "high".
Proof.
  destruct (py_getitem SPEED_VALUES value) as [speed|] eqn:E.
  - destruct (speed_cases speed (getitem_in_SPEED_VALUES _ _ E)) as [-> | [-> | Hrun]].
    + rewrite (fan_speed_mode_auto c value E). cbn. by rewrite elem_of_nil.
    + rewrite (fan_speed_mode_off c value E). cbn. rewrite list_elem_of_singleton. auto.
    + rewrite (fan_speed_mode_running c value speed E Hrun).
      assert (speed = "low" \/ speed = "medium" \/ speed = "high") as Hs
        by (unfold running in Hrun; rewrite !elem_of_cons, elem_of_nil in Hrun; tauto).
      destruct (falsy_or_off (c !! K_speed)); cbn; rewrite !elem_of_cons, elem_of_nil;
        intros Hp; destruct Hs as [-> | [-> | ->]]; intuition (subst; auto 10).
  - rewrite (fan_speed_mode_fault c value E). cbn. by rewrite elem_of_nil.
Qed.

Lemma event_no_publications cmd data c : publications (effects_of (event cmd data c)) = [].
Proof.
  rewrite event_run. case_bool_decide; [reflexivity |]. cbv zeta.
  destruct (Z.eqb cmd 0x3c); [| reflexivity].
  rewrite decode_display_data_run.
  destruct (Nat.eqb (length cc_segments) (length data)); [| reflexivity].
  destruct (decode_cells 0 data); reflexivity.
Qed.

Lemma command_no_publications value c :
  publications (effects_of (handle_set_speed value c)) = [] /\
  publications (effects_of (handle_set_fan_state value c)) = [].
Proof.
  split.
  - destruct (handle_set_speed_effects value c) as [[-> _] | [[-> _] | (n & -> & _)]];
      reflexivity.
  - destruct (handle_set_fan_state_effects value c) as [-> | [-> | [-> | ->]]]; reflexivity.
Qed.


(** * Publications and the cache over sequences of calls *)

Lemma perform_publications k c p :
  p ∈ publications (effects_of (perform k c)) ->
  p = state_pub "off" \/ p = state_pub "on" \/
  p = speed_pub "low" \/ p = speed_pub "medium" \/ p = speed_pub "high" \/
  exists value,
    p = Publication TOPIC_TEMP_OUTSIDE value 0 false \/
    p = Publication TOPIC_AIRFLOW_EXHAUST value 0 false \/
    p = Publication TOPIC_AIRFLOW_SUPPLY value 0 false.
Proof.
  intros Hp. destruct k; simpl perform in Hp.
  - by apply elem_of_nil in Hp.
  - rewrite event_no_publications in Hp. by apply elem_of_nil in Hp.
  - cbn in Hp. apply list_elem_of_singleton in Hp. subst p. do 5 right. eauto.
  - cbn in Hp. apply list_elem_of_singleton in Hp. subst p. do 5 right. eauto.
  - cbn in Hp. apply list_elem_of_singleton in Hp. subst p. do 5 right. eauto.
  - apply fan_speed_mode_publications in Hp. tauto.
  - by apply elem_of_nil in Hp.
  - rewrite (proj1 (command_no_publications _ _)) in Hp. by apply elem_of_nil in Hp.
  - rewrite (proj2 (command_no_publications _ _)) in Hp. by apply elem_of_nil in Hp.
Qed.

(** X16.  Whatever call a handler receives, each of its publications has
    quality of service 0, and is retained exactly when it is on the
    fan-state topic: the fan speed, the airflows and the outside
    temperature are published without the retain flag. *)
Theorem X16_retained_publications (k : handler_call) (c : cache_t) (p : publication) :
  p ∈ publications (effects_of (perform k c)) ->
  qos p = 0 /\ (retain p = true <-> topic p = TOPIC_FAN_STATE).
Proof.
  intros Hp. apply perform_publications in Hp.
  destruct Hp as [-> | [-> | [-> | [-> | [-> | (value & [-> | [-> | ->]])]]]]];
    (split; [reflexivity |]); split; first [reflexivity | discriminate | done].
Qed.

Lemma X16_retained_publications_witness :
  state_pub "on" ∈ publications (effects_of (perform (call_fan_speed_mode 2) ∅)) /\
  retain (state_pub "on") = true.
Proof.
  assert (state_pub "on" ∈ publications (effects_of (perform (call_fan_speed_mode 2) ∅)))
    as H by (change (state_pub "on" ∈ [state_pub "on"; speed_pub "low"]); constructor).
  split; [exact H |].
  apply (X16_retained_publications (call_fan_speed_mode 2) ∅ (state_pub "on") H).
  reflexivity.
Defined.

(** The cache and the calls issued after a sequence of calls to one
    handler. *)
Definition perform_seq (ks : list handler_call) (c : cache_t) : cache_t * list effect :=
  foldl (fun s k => (cache_of (perform k s.1), s.2 ++ effects_of (perform k s.1)))
        (c, []) ks.







(** X18.  The cache keeps the last frame of each command id: once [event]
    has been called with a frame, the frame stays cached under its command
    id through every later call, until [event] is called with a frame of
    the same command id or [invalidate_cache] is called. *)
Theorem X18_last_frame_is_kept (cmd : Z) (data : list Z) (ks : list handler_call)
    (c : cache_t) :
  Forall (fun k => k <> call_invalidate_cache /\ forall data', k <> call_event cmd data') ks ->
  perform_all ks (cache_of (event cmd data c)) !! inl cmd = Some (VBytes data).
Proof.
  assert (cache_of (event cmd data c) !! inl cmd = Some (VBytes data)) as Hk.
  { rewrite event_run. case_bool_decide as Hd; [exact Hd |].
    cbv zeta. cbn [cache_of].
    destruct (Z.eqb cmd 0x3c);
      [rewrite decode_display_data_cache |]; apply lookup_insert_eq. }
  revert Hk. generalize (cache_of (event cmd data c)) as c0. unfold perform_all.
  induction ks as [|k ks IH]; intros c0 Hk Hks; cbn [foldl]; [exact Hk |].
  apply Forall_cons in Hks. destruct Hks as [[Hni Hne] Hks].
  apply IH; [| exact Hks]. rewrite <- Hk.
  destruct k; simpl perform; try reflexivity.
  - done.
  - apply event_other_keys. intros [= ->]. by apply (Hne data0).
  - apply fan_speed_mode_int_keys.
  - by rewrite handle_set_speed_cache.
  - by rewrite handle_set_fan_state_cache.
Qed.

Lemma X18_last_frame_is_kept_witness :
  perform_all [call_event 8 [5]; call_fan_speed_mode 2; call_handle_set_speed "low"]
    (cache_of (event 7 [1] ∅)) !! inl 7 = Some (VBytes [1]).
Proof.
  apply (X18_last_frame_is_kept 7 [1]).
  repeat constructor; discriminate.
Defined.

(** * Repeated frames *)

(** The frames logged by [event] among [es]: command id and payload of each
    "Msg" record, in order. *)
Definition logged_frames (es : list effect) : list (Z * list Z) :=
  omap (fun e =>
          match e with
          | Log (LogRecord f [VInt cmd; VBytes data]) =>
              if String.eqb f "Msg %#x: [%s]" then Some (cmd, data) else None
          | _ => None
          end) es.

(** The frames of a sequence that differ from the frame just before them,
    [prev] standing before the first. *)
Fixpoint changed (prev : option (list Z)) (frames : list (list Z)) : list (list Z) :=
  match frames with
  | [] => []
  | data :: frames' =>
      if decide (prev = Some data) then changed prev frames'
      else data :: changed (Some data) frames'
  end.

(** The cached frame of a command id, when the entry holds bytes. *)
Definition cached_frame (c : cache_t) (cmd : Z) : option (list Z) :=
  match c !! inl cmd with
  | Some (VBytes data) => Some data
  | _ => None
  end.

Lemma event_logged_frames cmd data c :
  logged_frames (effects_of (event cmd data c)) =
    if bool_decide (c !! inl cmd = Some (VBytes data)) then [] else [(cmd, data)].
Proof.
  rewrite event_run. case_bool_decide; [reflexivity |]. cbv zeta.
  destruct (Z.eqb cmd 0x3c); [| reflexivity].
  rewrite decode_display_data_run.
  destruct (Nat.eqb (length cc_segments) (length data)); [| reflexivity].
  destruct (decode_cells 0 data); reflexivity.
Qed.

Lemma event_cached_frame cmd data c :
  cache_of (event cmd data c) !! inl cmd = Some (VBytes data).
Proof.
  rewrite event_run. case_bool_decide as Hd; [exact Hd |].
  cbv zeta. cbn [cache_of].
  destruct (Z.eqb cmd 0x3c); [rewrite decode_display_data_cache |]; apply lookup_insert_eq.
Qed.

Lemma logged_frames_app es1 es2 :
  logged_frames (es1 ++ es2) = logged_frames es1 ++ logged_frames es2.
Proof. unfold logged_frames. apply omap_app. Qed.

Lemma changed_no_repeat frames : forall prev i data,
  changed prev frames !! i = Some data -> changed prev frames !! S i <> Some data.
Proof.
  assert (forall frames prev data, changed prev frames !! 0%nat = Some data ->
                                   prev <> Some data) as Hhead.
  { induction frames0 as [|d fs IH]; intros prev data; simpl; [discriminate |].
    destruct (decide (prev = Some d)) as [-> | Hne]; [apply IH |].
    simpl. intros [= <-]. exact Hne. }
  induction frames as [|d fs IH]; intros prev i data; simpl; [discriminate |].
  destruct (decide (prev = Some d)) as [-> | Hne]; [apply IH |].
  destruct i as [|i]; simpl.
  - intros [= <-] H. by apply (Hhead fs (Some d) d).
  - apply IH.
Qed.

(** X19.  Feeding [event] a sequence of frames of one command id, each
    call made whether or not an earlier one raised: the frames logged are
    exactly those that differ from the frame just before them (the first
    from the cached frame, if there is one), in order; so no frame is logged
    twice in a row. *)
Theorem X19_repeated_frames_logged_once (cmd : Z) (frames : list (list Z)) (c : cache_t) :
  let logged := logged_frames (perform_seq (call_event cmd <$> frames) c).2 in
  logged = (fun data => (cmd, data)) <$> changed (cached_frame c cmd) frames /\
  (forall i f, logged !! i = Some f -> logged !! S i <> Some f).
Proof.
  cbv zeta.
  assert (logged_frames (perform_seq (call_event cmd <$> frames) c).2
          = (fun data => (cmd, data)) <$> changed (cached_frame c cmd) frames) as Heq.
  { unfold perform_seq.
    assert (forall es c,
              logged_frames
                (foldl (fun s k => (cache_of (perform k s.1), s.2 ++ effects_of (perform k s.1)))
                       (c, es) (call_event cmd <$> frames)).2
              = logged_frames es
                  ++ ((fun data => (cmd, data)) <$> changed (cached_frame c cmd) frames)) as H.
    { induction frames as [|data fs IH]; intros es c0; cbn [fmap list_fmap foldl fst snd].
      - cbn. by rewrite app_nil_r.
      - rewrite IH. cbn [perform]. rewrite logged_frames_app, event_logged_frames.
        unfold cached_frame at 1. rewrite event_cached_frame.
        cbn [changed]. unfold cached_frame.
        case_bool_decide as Hd.
        + rewrite Hd. rewrite decide_True by reflexivity. by rewrite app_nil_r.
        + rewrite decide_False.
          * cbn [fmap list_fmap]. by rewrite <- app_assoc.
          * intros Heq. apply Hd. destruct (c0 !! inl cmd) as [[]|]; congruence. }
    rewrite H. reflexivity. }
  split; [exact Heq |].
  rewrite Heq. intros i [cmd' data] Hi Hs.
  rewrite list_lookup_fmap in Hi, Hs.
  destruct (changed (cached_frame c cmd) frames !! i) as [d|] eqn:E; [| discriminate Hi].
  destruct (changed (cached_frame c cmd) frames !! S i) as [d'|] eqn:E'; [| discriminate Hs].
  cbn in Hi, Hs. simplify_eq. exact (changed_no_repeat frames _ i data E E').
Qed.
